(** * The HL7 / FHIR message translator of [backend/agent.py]

    A shallow embedding of [HealthcareAgent.parse_hl7_message],
    [HealthcareAgent.convert_fhir_to_hl7] and
    [HealthcareAgent.call_external_api], and the properties of them that the
    specification states.

    Conventions of the embedding.
    - A Python [str] is the [string] of its UTF-8 bytes.  The separators the
      code splits on (carriage return, [|], [^]) are ASCII, and an ASCII byte
      never occurs inside a multi-byte sequence, so splitting, joining and
      comparing the bytes is splitting, joining and comparing the text.
    - A JSON-shaped Python value is a [pyval]; a [dict] with [str] keys is a
      [gmap string pyval].
    - An operation that can raise returns an [outcome]: the value, or the
      exception. *)

From Stdlib Require Import Floats.PrimFloat Strings.Ascii Strings.String.
From stdpp Require Import gmap strings list fin_maps.

#[local] Set Warnings "-register-all".
#[local] Open Scope string_scope.
#[local] Open Scope list_scope.
#[local] Open Scope nat_scope.
#[local] Open Scope stdpp_scope.

(** ** Python values *)

Inductive pyval : Type :=
| PNone
| PBool (b : bool)
| PInt (z : Z)
| PFloat (f : float)
| PStr (s : string)
| PList (l : list pyval)
| PDict (d : gmap string pyval).

Abbreviation pydict := (gmap string pyval).

Inductive exn : Type :=
| IndexError
| KeyError
| TypeError
| AttributeError
| ValueError (msg : string)
| JSONDecodeError
| HTTPError (status : Z)
| RequestException
| MissingSchema
| InvalidSchema
| InvalidURL
| InvalidHeader.

(** [isinstance(e, ValueError)].  Of the exceptions of the requests
    library, [JSONDecodeError], [MissingSchema], [InvalidSchema],
    [InvalidURL] and [InvalidHeader] are subclasses of [ValueError];
    [HTTPError] and the rest, which [RequestException] stands for
    ([ConnectionError], [Timeout], ...), are not. *)
Definition is_value_error (e : exn) : bool :=
  match e with
  | ValueError _ | JSONDecodeError
  | MissingSchema | InvalidSchema | InvalidURL | InvalidHeader => true
  | IndexError | KeyError | TypeError | AttributeError
  | HTTPError _ | RequestException => false
  end.

Inductive outcome (A : Type) : Type :=
| Ok (a : A)
| Raise (e : exn).
Arguments Ok {A} a.
Arguments Raise {A} e.

#[global] Instance outcome_ret : MRet outcome := fun A a => Ok a.
#[global] Instance outcome_bind : MBind outcome := fun A B f m =>
  match m with
  | Ok a => f a
  | Raise e => Raise e
  end.
#[global] Instance outcome_fmap : FMap outcome := fun A B f m =>
  match m with
  | Ok a => Ok (f a)
  | Raise e => Raise e
  end.

(** A [for] loop whose body may raise: the first exception ends the loop. *)
Fixpoint for_each {S A : Type} (body : S -> A -> outcome S) (s : S)
    (l : list A) : outcome S :=
  match l with
  | [] => Ok s
  | a :: l' => s' ← body s a; for_each body s' l'
  end.

(** [bool(v)]. *)
Definition truthy (v : pyval) : bool :=
  match v with
  | PNone => false
  | PBool b => b
  | PInt z => negb (z =? 0)%Z
  | PFloat f => negb (PrimFloat.eqb f PrimFloat.zero)
  | PStr s => negb (String.eqb s "")
  | PList l => match l with [] => false | _ :: _ => true end
  | PDict d => negb (bool_decide (d = ∅))
  end.

(** ** Strings *)

Definition CR : ascii := "013"%char.
Definition PIPE : ascii := "|"%char.
Definition CARET : ascii := "^"%char.

(** [s.split(sep)] for a separator of one character. *)
Fixpoint split (sep : ascii) (s : string) : list string :=
  match s with
  | EmptyString => [EmptyString]
  | String c s' =>
      if Ascii.eqb c sep then EmptyString :: split sep s'
      else
        match split sep s' with
        | w :: ws => String c w :: ws
        | [] => [String c EmptyString]
        end
  end.

(** [sep.join(l)]. *)
Fixpoint join (sep : string) (l : list string) : string :=
  match l with
  | [] => ""
  | [s] => s
  | s :: l' => s +:+ sep +:+ join sep l'
  end.

(** [l[i]] for a list and an index that is not negative. *)
Definition index {A : Type} (l : list A) (i : nat) : outcome A :=
  match l !! i with
  | Some a => Ok a
  | None => Raise IndexError
  end.

(** Number of bytes of the UTF-8 sequence that the byte [c] starts. *)
Definition utf8_width (c : ascii) : nat :=
  let n := nat_of_ascii c in
  if n <? 192 then 1 else if n <? 224 then 2 else if n <? 240 then 3 else 4.

(** [s[0]] for a string that is not empty: its first character. *)
Definition first_char (s : string) : string :=
  match s with
  | EmptyString => EmptyString
  | String c _ => substring 0 (utf8_width c) s
  end.

(** ** [parse_hl7_message] *)

Module HL7.

(** [result["observations"].append(o)]. *)
Definition append_observation (result : pydict) (o : pyval) : outcome pydict :=
  match result !! "observations" with
  | None => Raise KeyError
  | Some (PList l) => Ok (<["observations" := PList (l ++ [o])]> result)
  | Some _ => Raise AttributeError
  end.

(** The body of the loop over the segments. *)
Definition parse_segment (result : pydict) (segment : string) : outcome pydict :=
  if bool_decide (segment = "") then Ok result
  else
    let fields := split PIPE segment in
    segment_type ← index fields 0;
    if String.eqb segment_type "PID" then
      if 5 <? length fields then
        patient_id ← index fields 3;
        let result := <["patient_id" := PStr patient_id]> result in
        name_parts ←
          (if 5 <? length fields then split CARET <$> index fields 5
           else Ok []);
        if 2 <=? length name_parts then
          last_name ← index name_parts 0;
          let result := <["last_name" := PStr last_name]> result in
          first_name ← index name_parts 1;
          Ok (<["first_name" := PStr first_name]> result)
        else Ok result
      else Ok result
    else if String.eqb segment_type "OBX" then
      if 5 <? length fields then
        let result :=
          if bool_decide (is_Some (result !! "observations")) then result
          else <["observations" := PList []]> result in
        id ← index fields 3;
        value ← index fields 5;
        units ← (if 6 <? length fields then PStr <$> index fields 6
                 else Ok PNone);
        append_observation result
          (PDict (<["id" := PStr id]>
                  (<["value" := PStr value]>
                   (<["units" := units]> ∅))))
      else Ok result
    else Ok result.

Definition parse_hl7_message (hl7_message : string) : outcome pydict :=
  let segments := split CR hl7_message in
  for_each parse_segment ∅ segments.

End HL7.

(** ** Reading a message: segments, fields, components *)

Module Segment.

(** The segments of a message, in the order of the message. *)
Definition segments (hl7_message : string) : list string :=
  split CR hl7_message.

(** The pipe-delimited fields of a segment; field 0 is the type code. *)
Definition fields (segment : string) : list string := split PIPE segment.

(** Field [i] of a segment (the empty string when the segment is shorter). *)
Definition field (segment : string) (i : nat) : string :=
  default "" (fields segment !! i).

Definition segment_type (segment : string) : string := field segment 0.

Definition is_pid (segment : string) : bool :=
  String.eqb (segment_type segment) "PID".

Definition is_obx (segment : string) : bool :=
  String.eqb (segment_type segment) "OBX".

(** A [PID] segment with more than 5 fields. *)
Definition pid_wf (segment : string) : bool :=
  is_pid segment && (5 <? length (fields segment)).

(** An [OBX] segment with more than 5 fields. *)
Definition obx_wf (segment : string) : bool :=
  is_obx segment && (5 <? length (fields segment)).

(** The caret-delimited components of field 5. *)
Definition name_parts (segment : string) : list string :=
  split CARET (field segment 5).

Definition name_part (segment : string) (i : nat) : string :=
  default "" (name_parts segment !! i).

(** A [PID] segment with more than 5 fields whose field 5 has at least two
    components. *)
Definition pid_named (segment : string) : bool :=
  pid_wf segment && (2 <=? length (name_parts segment)).

(** The observation that an [OBX] segment stands for. *)
Definition observation_of (segment : string) : pyval :=
  PDict (<["id" := PStr (field segment 3)]>
         (<["value" := PStr (field segment 5)]>
          (<["units" := from_option PStr PNone (fields segment !! 6)]> ∅))).

(** The character [c] does not occur in [s]. *)
Fixpoint lacks (c : ascii) (s : string) : bool :=
  match s with
  | EmptyString => true
  | String c' s' => negb (Ascii.eqb c' c) && lacks c s'
  end.

(** A message with two [PID] segments of more than 5 fields; the name of
    the second has one component. *)
Definition two_pid_message : string :=
  "PID|||1||Doe^Jane" +:+ String CR "PID|||2||Smith".

End Segment.

(** ** What one segment does to the record *)

Module Step.
Import HL7 Segment.

(** The [observations] entry is absent or a list. *)
Definition obs_ok (result : pydict) : Prop :=
  result !! "observations" = None ∨
  ∃ l, result !! "observations" = Some (PList l).

Definition obs_list (result : pydict) : list pyval :=
  match result !! "observations" with
  | Some (PList l) => l
  | _ => []
  end.

(** The entry that holds the observations [l]: none when there are none. *)
Definition obs_entry (l : list pyval) : option pyval :=
  match l with
  | [] => None
  | _ :: _ => Some (PList l)
  end.

Definition step (result : pydict) (segment : string) : pydict :=
  if pid_wf segment then
    let result := <["patient_id" := PStr (field segment 3)]> result in
    if 2 <=? length (name_parts segment) then
      <["first_name" := PStr (name_part segment 1)]>
        (<["last_name" := PStr (name_part segment 0)]> result)
    else result
  else if obx_wf segment then
    <["observations" := PList (obs_list result ++ [observation_of segment])]>
      result
  else result.

End Step.

(** ** [convert_fhir_to_hl7] *)

Module FHIR.

Definition MSH_HEADER : string :=
  "MSH|^~\&|SENDING_APP|SENDING_FACILITY|RECEIVING_APP|RECEIVING_FACILITY|20230615120000||ADT^A01|MSG00001|P|2.5".

(** [v[0]].  The keys of a JSON object are strings, so [0] is never one. *)
Definition item0 (v : pyval) : outcome pyval :=
  match v with
  | PList l => index l 0
  | PStr s =>
      if String.eqb s "" then Raise IndexError else Ok (PStr (first_char s))
  | PDict _ => Raise KeyError
  | PNone | PBool _ | PInt _ | PFloat _ => Raise TypeError
  end.

(** [d.get(k, default)]. *)
Definition get (d : pydict) (k : string) (dflt : pyval) : pyval :=
  default dflt (d !! k).

(** The receiver of a [.get] call: only a dict has the method. *)
Definition get_receiver (v : pyval) : outcome pydict :=
  match v with
  | PDict d => Ok d
  | _ => Raise AttributeError
  end.

Section convert.

(** [str(v)] for a value that is not a [str] (how Python prints [None],
    numbers, lists and dicts).  The translator only interpolates the text, so
    it is left open here. *)
Variable str_of : pyval → string.

(** [format(v, "")], which an f-string applies to an interpolated value. *)
Definition format_value (v : pyval) : string :=
  match v with
  | PStr s => s
  | _ => str_of v
  end.

Definition convert_fhir_to_hl7 (fhir_data : pydict) : outcome string :=
  let hl7_message := [MSH_HEADER] in
  hl7_message ←
    match fhir_data !! "name" with
    | Some names =>
        if truthy names then
          name ← item0 names;
          name ← get_receiver name;
          let family := get name "family" (PStr "") in
          given ←
            match name !! "given" with
            | Some g =>
                if truthy g then item0 (get name "given" (PList [PStr ""]))
                else Ok (PStr "")
            | None => Ok (PStr "")
            end;
          let patient_id := get fhir_data "id" (PStr "") in
          let gender := get fhir_data "gender" (PStr "") in
          let birth_date := get fhir_data "birthDate" (PStr "") in
          Ok (hl7_message ++
              ["PID|||" +:+ format_value patient_id +:+ "||" +:+
               format_value family +:+ "^" +:+ format_value given +:+ "||" +:+
               format_value birth_date +:+ "|" +:+ format_value gender])
        else Ok hl7_message
    | None => Ok hl7_message
    end;
  Ok (join (String CR "") hl7_message).

End convert.

(** *** The shape of a patient resource

    What it means for a mapping to hold a [str] under a key, or nothing, and
    for a name entry to have a first given name. *)

(** Key [k] of [d] holds the string [s], or is absent and [s] is empty. *)
Definition str_field (d : pydict) (k : string) (s : string) : Prop :=
  d !! k = Some (PStr s) ∨ (d !! k = None ∧ s = "").

(** [g] is the first element of the list under [given], or that key is
    absent or an empty list and [g] is empty. *)
Definition first_given (name : pydict) (g : string) : Prop :=
  (∃ rest, name !! "given" = Some (PList (PStr g :: rest))) ∨
  ((name !! "given" = None ∨ name !! "given" = Some (PList [])) ∧ g = "").

(** The [name] entry is absent or empty. *)
Definition name_empty (fhir_data : pydict) : Prop :=
  match fhir_data !! "name" with
  | Some names => truthy names = false
  | None => True
  end.

(** The shapes of the [name] entry on which the conversion goes through. *)
Definition name_convertible (fhir_data : pydict) : Prop :=
  name_empty fhir_data ∨
  ∃ name rest, fhir_data !! "name" = Some (PList (PDict name :: rest)) ∧
    match name !! "given" with
    | None => True
    | Some g =>
        truthy g = false ∨ (∃ x l, g = PList (x :: l)) ∨ (∃ s, g = PStr s)
    end.

(** [{name: [{family: "Doe", given: ["Jane"]}], id: "7", gender: "F",
    birthDate: "19900101"}]. *)
Definition jane_doe : pydict :=
  <["name" := PList [PDict (<["family" := PStr "Doe"]>
                            (<["given" := PList [PStr "Jane"]]> ∅))]]>
    (<["id" := PStr "7"]>
     (<["gender" := PStr "F"]>
      (<["birthDate" := PStr "19900101"]> ∅))).

(** [{name: "Doe"}]: the name is a text, not a list of name entries. *)
Definition name_as_text : pydict := <["name" := PStr "Doe"]> ∅.

(** Jane Doe again, with an [id] that holds a carriage return and the
    start of an [OBX] segment. *)
Definition id_with_segment : pydict :=
  <["id" := PStr ("7" +:+ String CR "OBX|1|2|3|4|5")]> jane_doe.

(** Record with an [observations] entry and a name, used to show what the
    round trip drops. *)
Definition patient_with_observations : pydict :=
  <["observations" := PList [PStr "8302-2"]]>
    (<["name" := PList [PDict (<["family" := PStr "Doe"]> ∅)]]> ∅).

End FHIR.

(** ** [call_external_api] *)

Module Api.

Inductive verb : Type := GET | POST | PUT | DELETE.

Definition verb_name (v : verb) : string :=
  match v with
  | GET => "GET"
  | POST => "POST"
  | PUT => "PUT"
  | DELETE => "DELETE"
  end.

(** A call of [requests.get], [requests.post], [requests.put] or
    [requests.delete]; [req_json] is the [json=] argument. *)
Record request : Type := {
  req_verb : verb;
  req_url : string;
  req_json : option pydict;
  req_headers : pydict
}.

(** A response: its status, its body, and the body decoded as JSON when it
    is JSON. *)
Record response : Type := {
  status_code : Z;
  content : string;
  json : option pyval
}.

(** [str.upper] on text that is ASCII. *)
Definition ascii_upper (c : ascii) : ascii :=
  let n := nat_of_ascii c in
  if (97 <=? n) && (n <=? 122) then ascii_of_nat (n - 32) else c.

Fixpoint upper_ascii (s : string) : string :=
  match s with
  | EmptyString => EmptyString
  | String c s' => String (ascii_upper c) (upper_ascii s')
  end.

Fixpoint is_ascii (s : string) : bool :=
  match s with
  | EmptyString => true
  | String c s' => (nat_of_ascii c <? 128) && is_ascii s'
  end.

(** Equality of ASCII text up to the case of its letters. *)
Definition ascii_lower (c : ascii) : ascii :=
  let n := nat_of_ascii c in
  if (65 <=? n) && (n <=? 90) then ascii_of_nat (n + 32) else c.

Definition same_letter (c1 c2 : ascii) : bool :=
  Ascii.eqb (ascii_lower c1) (ascii_lower c2).

Fixpoint ci_eqb (s t : string) : bool :=
  match s, t with
  | EmptyString, EmptyString => true
  | String c s', String d t' => same_letter c d && ci_eqb s' t'
  | _, _ => false
  end.

(** All the 256 characters. *)
Definition all_chars : list ascii := List.map ascii_of_nat (seq 0 256).

Section call.

(** [str.upper], on any text. *)
Variable upper : string → string.

(** The requests library and the network behind it: the response to a
    request, or the exception that the library raises instead
    ([ConnectionError], [MissingSchema] for a URL without a scheme, ...). *)
Variable send : request → outcome response.

(** [response.raise_for_status()]. *)
Definition raise_for_status (r : response) : outcome unit :=
  if ((400 <=? status_code r) && (status_code r <? 600))%Z
  then Raise (HTTPError (status_code r))
  else Ok ().

(** The part after the dispatch on the method: the request counts as
    attempted, and its response is checked and decoded. *)
Definition attempt (req : request) : list request * outcome pyval :=
  ([req],
   r ← send req;
   _ ← raise_for_status r;
   if String.eqb (content r) "" then Ok (PDict ∅)
   else
     match json r with
     | Some v => Ok v
     | None => Raise JSONDecodeError
     end).

(** The requests attempted, and the result. *)
Definition call_external_api (url method : string) (data : option pydict)
    (headers : option pydict) : list request * outcome pyval :=
  let request_headers :=
    match headers with
    | Some h => if truthy (PDict h) then h else ∅
    | None => ∅
    end in
  if String.eqb (upper method) "GET" then
    attempt {| req_verb := GET; req_url := url; req_json := None;
               req_headers := request_headers |}
  else if String.eqb (upper method) "POST" then
    attempt {| req_verb := POST; req_url := url; req_json := data;
               req_headers := request_headers |}
  else if String.eqb (upper method) "PUT" then
    attempt {| req_verb := PUT; req_url := url; req_json := data;
               req_headers := request_headers |}
  else if String.eqb (upper method) "DELETE" then
    attempt {| req_verb := DELETE; req_url := url; req_json := None;
               req_headers := request_headers |}
  else ([], Raise (ValueError ("Unsupported HTTP method: " +:+ method))).

End call.

(** The method names the forwarder supports. *)
Definition supported : list string := verb_name <$> [GET; POST; PUT; DELETE].

End Api.

(** ** The FHIR client: [__init__], [get_patient], [search_patients],
    [get_patient_observations] *)

Module Agent.

Definition DEFAULT_FHIR_URL : string := "https://hapi.fhir.org/baseR4".

Record agent : Type := {
  base_fhir_url : string;
  api_key : option string;
  headers : gmap string string
}.

(** [HealthcareAgent(base_fhir_url, api_key)]; both arguments may be
    [None]. *)
Definition init (base_fhir_url api_key : option string) : agent :=
  let headers : gmap string string :=
    <["Content-Type" := "application/fhir+json"]>
      (<["Accept" := "application/fhir+json"]> ∅) in
  {| base_fhir_url :=
       match base_fhir_url with
       | Some u => if String.eqb u "" then DEFAULT_FHIR_URL else u
       | None => DEFAULT_FHIR_URL
       end;
     api_key := api_key;
     headers :=
       match api_key with
       | Some k =>
           if String.eqb k "" then headers
           else <["Authorization" := "Bearer " +:+ k]> headers
       | None => headers
       end |}.

(** A call [requests.get(url, headers=..., params=...)]. *)
Record fhir_request : Type := {
  fhir_url : string;
  fhir_headers : gmap string string;
  fhir_params : option pydict
}.

(** [response.json()]. *)
Definition response_json (r : Api.response) : outcome pyval :=
  match Api.json r with
  | Some v => Ok v
  | None => Raise JSONDecodeError
  end.

(** [v.get("entry", [])] on the decoded body. *)
Definition entries (v : pyval) : outcome pyval :=
  d ← FHIR.get_receiver v; Ok (FHIR.get d "entry" (PList [])).

Section client.

(** The requests library and the network behind it, for [requests.get]:
    the response, or the exception that the library raises instead. *)
Variable http_get : fhir_request → outcome Api.response.

(** [requests.get] followed by [raise_for_status]. *)
Definition fetch (req : fhir_request) : outcome Api.response :=
  r ← http_get req; _ ← Api.raise_for_status r; Ok r.

Definition get_patient (self : agent) (patient_id : string) : outcome pyval :=
  let endpoint := base_fhir_url self +:+ "/Patient/" +:+ patient_id in
  response ← fetch {| fhir_url := endpoint; fhir_headers := headers self;
                      fhir_params := None |};
  response_json response.

Definition search_patients (self : agent) (params : pydict) : outcome pyval :=
  let endpoint := base_fhir_url self +:+ "/Patient" in
  response ← fetch {| fhir_url := endpoint; fhir_headers := headers self;
                      fhir_params := Some params |};
  v ← response_json response;
  entries v.

Definition get_patient_observations (self : agent) (patient_id : string)
    : outcome pyval :=
  let endpoint := base_fhir_url self +:+ "/Observation" in
  let params : pydict := <["patient" := PStr patient_id]> ∅ in
  response ← fetch {| fhir_url := endpoint; fhir_headers := headers self;
                      fhir_params := Some params |};
  v ← response_json response;
  entries v.

End client.

End Agent.

(** ** The gateway of [backend/api.py] *)

Module Gateway.

(** What a handler gives back: the body of the response, or an
    [HTTPException] with its status and detail. *)
Inductive reply : Type :=
| Reply (body : pyval)
| HTTPException (status : Z) (detail : string).

(** The body of a [POST /patients/search]. *)
Record PatientSearch : Type := {
  name : option string;
  identifier : option string;
  birthdate : option string;
  gender : option string
}.

(** [search.dict().items()]. *)
Definition search_items (search : PatientSearch)
    : list (string * option string) :=
  [("name", name search); ("identifier", identifier search);
   ("birthdate", birthdate search); ("gender", gender search)].

(** [{k: v for k, v in search.dict().items() if v is not None}]. *)
Definition search_params (search : PatientSearch) : pydict :=
  fold_left
    (λ (params : pydict) (kv : string * option string),
       match kv.2 with
       | Some v => <[kv.1 := PStr v]> params
       | None => params
       end)
    (search_items search) ∅.

Definition get_agent : Agent.agent :=
  Agent.init (Some "https://hapi.fhir.org/baseR4") None.

Section handlers.

Variable str_of : pyval → string.
Variable upper : string → string.
Variable send : Api.request → outcome Api.response.
Variable http_get : Agent.fhir_request → outcome Api.response.

(** [str(e)] for an exception that carries no message of the code's own. *)
Variable text_of : exn → string.

(** [str(e)]. *)
Definition exn_text (e : exn) : string :=
  match e with
  | ValueError msg => msg
  | _ => text_of e
  end.

(** [try: return ... except Exception as e: raise HTTPException(status,
    detail=f"{prefix}{str(e)}")]. *)
Definition guarded (status : Z) (prefix : string) (o : outcome pyval)
    : reply :=
  match o with
  | Ok v => Reply v
  | Raise e => HTTPException status (prefix +:+ exn_text e)
  end.

Definition read_root : reply :=
  Reply (PDict (<["message" := PStr "Healthcare AI Agent API"]> ∅)).

Definition get_patient (patient_id : string) : reply :=
  guarded 404 "Patient not found: "
    (Agent.get_patient http_get get_agent patient_id).

Definition search_patients (search : PatientSearch) : reply :=
  let params := search_params search in
  guarded 500 "Error searching patients: "
    (Agent.search_patients http_get get_agent params).

Definition get_patient_observations (patient_id : string) : reply :=
  guarded 500 "Error retrieving observations: "
    (Agent.get_patient_observations http_get get_agent patient_id).

Definition parse_hl7 (message : string) : reply :=
  guarded 400 "Error parsing HL7 message: "
    (PDict <$> HL7.parse_hl7_message message).

Definition convert_fhir_to_hl7 (data : pydict) : reply :=
  guarded 400 "Error converting FHIR to HL7: "
    (hl7_message ← FHIR.convert_fhir_to_hl7 str_of data;
     Ok (PDict (<["hl7_message" := PStr hl7_message]> ∅))).

(** The requests attempted, and the reply. *)
Definition call_external_api (url method : string) (data : option pydict)
    (headers : option pydict) : list Api.request * reply :=
  let r := Api.call_external_api upper send url method data headers in
  (r.1, guarded 500 "Error calling external API: " r.2).

End handlers.

End Gateway.

(** ** Further vocabulary for the properties *)

Module Props.

(** The four keys a parsed record can have. *)
Definition record_keys : gset string :=
  {["patient_id"; "last_name"; "first_name"; "observations"]}.

(** The request of verb [v] that the forwarder makes: [data] goes with
    [POST] and [PUT] only, and empty or missing headers are no headers. *)
Definition request_of (v : Api.verb) (url : string) (data : option pydict)
    (headers : option pydict) : Api.request :=
  {| Api.req_verb := v;
     Api.req_url := url;
     Api.req_json :=
       match v with
       | Api.POST | Api.PUT => data
       | Api.GET | Api.DELETE => None
       end;
     Api.req_headers := default ∅ headers |}.

(** The sample message of the [__main__] block, whose lines end in line
    feeds. *)
Definition LF : ascii := "010"%char.

Definition sample_message : string :=
  "MSH|^~\&|SENDING_APP|SENDING_FACILITY|RECEIVING_APP|RECEIVING_FACILITY|20230615120000||ADT^A01|MSG00001|P|2.5"
  +:+ String LF "PID|||12345||Smith^John||19800101|M"
  +:+ String LF "OBX||NM|8302-2^Height^LN||180|cm"
  +:+ String LF "OBX||NM|8462-4^BP Diastolic^LN||80|mm[Hg]"
  +:+ String LF "OBX||NM|8480-6^BP Systolic^LN||120|mm[Hg]".

End Props.

(** ** Lemmas on [split] *)

Lemma split_cons (sep : ascii) (s : string) :
  ∃ w ws, split sep s = w :: ws.
Proof.
  destruct s as [|c s]; simpl; [by eauto|].
  destruct (Ascii.eqb c sep); [by eauto|].
  destruct (split sep s); eauto.
Qed.

Lemma split_length (sep : ascii) (s : string) : 1 ≤ length (split sep s).
Proof. destruct (split_cons sep s) as (w & ws & ->). simpl. lia. Qed.

Lemma split_lacks (sep : ascii) (s : string) :
  Segment.lacks sep s = true → split sep s = [s].
Proof.
  induction s as [|c s IH]; simpl; [done|].
  destruct (Ascii.eqb c sep); simpl; [done|].
  intros H. by rewrite (IH H).
Qed.

Lemma for_each_app {S A : Type} (body : S → A → outcome S) s l1 l2 :
  for_each body s (l1 ++ l2) = (s' ← for_each body s l1; for_each body s' l2).
Proof.
  revert s. induction l1 as [|a l1 IH]; intros s; simpl; [done|].
  destruct (body s a) as [s'|e]; simpl; [apply IH | done].
Qed.

(** ** The loop body never raises, and is [step] *)

Section parse_segment.
Import HL7 Segment Step.

Lemma step_obs_ok result segment : obs_ok result → obs_ok (step result segment).
Proof.
  intros Hok. unfold step.
  destruct (pid_wf segment).
  - destruct (2 <=? length (name_parts segment));
      unfold obs_ok; by rewrite !lookup_insert_ne.
  - destruct (obx_wf segment); [|done].
    right. eexists. by rewrite lookup_insert_eq.
Qed.

Lemma parse_segment_step result segment :
  obs_ok result → parse_segment result segment = Ok (step result segment).
Proof.
  intros Hok. unfold parse_segment, step.
  case_bool_decide as Hempty; [by subst|].
  unfold pid_wf, obx_wf, is_pid, is_obx, segment_type, name_part, name_parts,
    obs_list, observation_of, field, fields.
  destruct (split_cons PIPE segment) as (f0 & fs & ->). simpl.
  destruct (String.eqb f0 "PID") eqn:Hpid.
  - apply String.eqb_eq in Hpid as ->.
    destruct fs as [|f1 [|f2 [|f3 [|f4 [|f5 fs]]]]]; simpl; try done.
    destruct (split_cons CARET f5) as (n0 & ns & ->). simpl.
    destruct ns as [|n1 ns]; simpl; done.
  - destruct (String.eqb f0 "OBX") eqn:Hobx; simpl; [|done].
    destruct fs as [|f1 [|f2 [|f3 [|f4 [|f5 fs]]]]]; simpl; try done.
    assert (∀ units,
      append_observation
        (if bool_decide (is_Some (result !! "observations")) then result
         else <["observations" := PList []]> result)
        (PDict (<["id" := PStr f3]>
                (<["value" := PStr f5]> (<["units" := units]> ∅)))) =
      Ok (<["observations" :=
             PList (match result !! "observations" with
                    | Some (PList l) => l
                    | _ => []
                    end ++
                    [PDict (<["id" := PStr f3]>
                            (<["value" := PStr f5]>
                             (<["units" := units]> ∅)))])]> result)) as Happ.
    { intros units. unfold append_observation.
      destruct Hok as [Hnone | [l Hsome]].
      - rewrite Hnone. rewrite bool_decide_eq_false_2 by (by intros [? ?]).
        rewrite lookup_insert_eq. simpl. by rewrite insert_insert_eq.
      - rewrite Hsome. rewrite bool_decide_eq_true_2 by eauto.
        by rewrite Hsome. }
    destruct fs as [|f6 fs]; simpl; apply Happ.
Qed.

Lemma for_each_parse_segment (l : list string) (result : pydict) :
  obs_ok result →
  for_each parse_segment result l = Ok (fold_left step l result).
Proof.
  revert result. induction l as [|segment l IH]; intros result Hok; simpl.
  - done.
  - rewrite parse_segment_step by done. simpl.
    apply IH. by apply step_obs_ok.
Qed.

Lemma parse_hl7_message_fold (hl7_message : string) :
  parse_hl7_message hl7_message =
  Ok (fold_left step (segments hl7_message) ∅).
Proof.
  unfold parse_hl7_message. apply for_each_parse_segment.
  left. apply lookup_empty.
Qed.

End parse_segment.

(** ** What the loop leaves in the record *)

Section fold_step.
Import HL7 Segment Step.

(** Lookups in a record after the assignments of the loop body. *)
Ltac lookup_assigned :=
  repeat first
    [ rewrite lookup_insert_eq
    | rewrite lookup_insert_ne by done
    | rewrite lookup_empty ];
  try done.

Lemma wf_exclusive segment : pid_wf segment = true → obx_wf segment = false.
Proof.
  unfold pid_wf, obx_wf, is_pid, is_obx.
  destruct (String.eqb_spec (segment_type segment) "PID") as [->|]; done.
Qed.

Lemma step_patient_id result segment :
  step result segment !! "patient_id" =
  if pid_wf segment then Some (PStr (field segment 3))
  else result !! "patient_id".
Proof.
  unfold step, pid_named. destruct (pid_wf segment).
  - destruct (2 <=? length (name_parts segment)); lookup_assigned.
  - destruct (obx_wf segment); lookup_assigned.
Qed.

Lemma step_last_name result segment :
  step result segment !! "last_name" =
  if pid_named segment then Some (PStr (name_part segment 0))
  else result !! "last_name".
Proof.
  unfold step, pid_named. destruct (pid_wf segment); cbn [andb].
  - destruct (2 <=? length (name_parts segment)); lookup_assigned.
  - destruct (obx_wf segment); lookup_assigned.
Qed.

Lemma step_first_name result segment :
  step result segment !! "first_name" =
  if pid_named segment then Some (PStr (name_part segment 1))
  else result !! "first_name".
Proof.
  unfold step, pid_named. destruct (pid_wf segment); cbn [andb].
  - destruct (2 <=? length (name_parts segment)); lookup_assigned.
  - destruct (obx_wf segment); lookup_assigned.
Qed.

Lemma step_observations result segment :
  step result segment !! "observations" =
  if obx_wf segment
  then Some (PList (obs_list result ++ [observation_of segment]))
  else result !! "observations".
Proof.
  unfold step. destruct (pid_wf segment) eqn:Hpid.
  - rewrite (wf_exclusive _ Hpid). destruct (2 <=? length (name_parts segment)); lookup_assigned.
  - destruct (obx_wf segment); lookup_assigned.
Qed.

(** A key that every segment satisfying [P] overwrites, and no other
    segment touches, holds what the last such segment wrote. *)
Lemma fold_step_last (k : string) (P : string → bool) (v : string → pyval) :
  (∀ result segment,
     step result segment !! k =
     if P segment then Some (v segment) else result !! k) →
  ∀ l result,
    fold_left step l result !! k =
    match last (filter P l) with
    | Some segment => Some (v segment)
    | None => result !! k
    end.
Proof.
  intros Hstep l. induction l as [|segment l IH]; intros result; simpl.
  - done.
  - rewrite IH, Hstep, filter_cons.
    destruct (P segment); case_decide as HD; try (by destruct HD).
    + rewrite last_cons. by destruct (last (filter P l)).
    + done.
Qed.

Lemma obs_entry_snoc l o : obs_entry (l ++ [o]) = Some (PList (l ++ [o])).
Proof. by destruct l. Qed.

Lemma fold_step_observations l result :
  result !! "observations" = obs_entry (obs_list result) →
  fold_left step l result !! "observations" =
  obs_entry (obs_list result ++ (observation_of <$> filter obx_wf l)).
Proof.
  revert result. induction l as [|segment l IH]; intros result Hnorm; simpl.
  - by rewrite app_nil_r.
  - assert (obs_list (step result segment) =
            obs_list result ++
            (if obx_wf segment then [observation_of segment] else []))
      as Hlist.
    { unfold obs_list at 1. rewrite step_observations.
      destruct (obx_wf segment); [done|]. by rewrite app_nil_r. }
    rewrite IH.
    + rewrite Hlist, filter_cons.
      destruct (obx_wf segment); case_decide as HD; try (by destruct HD).
      * by rewrite fmap_cons, <- app_assoc.
      * by rewrite app_nil_r.
    + rewrite Hlist, step_observations.
      destruct (obx_wf segment); [by rewrite obs_entry_snoc|].
      by rewrite app_nil_r.
Qed.

Lemma parse_result (hl7_message : string) :
  ∃ result, parse_hl7_message hl7_message = Ok result ∧
    result !! "patient_id" =
      (λ segment, PStr (field segment 3)) <$>
        last (filter pid_wf (segments hl7_message)) ∧
    result !! "last_name" =
      (λ segment, PStr (name_part segment 0)) <$>
        last (filter pid_named (segments hl7_message)) ∧
    result !! "first_name" =
      (λ segment, PStr (name_part segment 1)) <$>
        last (filter pid_named (segments hl7_message)) ∧
    result !! "observations" =
      obs_entry (observation_of <$> filter obx_wf (segments hl7_message)).
Proof.
  eexists. split; [apply parse_hl7_message_fold|].
  rewrite (fold_step_last _ _ _ step_patient_id).
  rewrite (fold_step_last _ _ _ step_last_name).
  rewrite (fold_step_last _ _ _ step_first_name).
  rewrite fold_step_observations by done.
  rewrite !lookup_empty.
  repeat split; try by destruct (last _).
Qed.

End fold_step.

(** ** Properties of [parse_hl7_message] *)

Section parse_properties.
Import HL7 Segment Step.

Lemma pid_wf_is_pid segment : pid_wf segment → is_pid segment.
Proof. unfold pid_wf. by intros [? _]%andb_prop_elim. Qed.

Lemma pid_named_is_pid segment : pid_named segment → is_pid segment.
Proof.
  unfold pid_named. intros [? _]%andb_prop_elim. by apply pid_wf_is_pid.
Qed.

(** Filtering by a stronger test when one segment passes the weaker one. *)
Lemma filter_only (P Q : string → bool) (l : list string) (x : string) :
  filter P l = [x] → (∀ y, Q y → P y) →
  filter Q l = if Q x then [x] else [].
Proof.
  intros Hl HQP.
  rewrite <- (list_filter_filter_l Q P l) by done.
  rewrite Hl, filter_cons. simpl.
  destruct (Q x); case_decide as HD; try done; by destruct HD.
Qed.

(** C2: [parse_hl7_message] is total: on every string it returns a record
    and raises nothing. *)
Theorem parse_hl7_message_total (hl7_message : string) :
  ∃ result, parse_hl7_message hl7_message = Ok result.
Proof. eexists. apply parse_hl7_message_fold. Qed.

(** C1: a message whose one [PID] segment has at least 6 fields, with
    ["12345"] as field 3 and ["Smith^John"] as field 5, parses to a record
    with [patient_id = "12345"], [last_name = "Smith"] and
    [first_name = "John"]. *)
Theorem parse_pid_smith_john (hl7_message segment : string) :
  filter is_pid (segments hl7_message) = [segment] →
  6 ≤ length (fields segment) →
  fields segment !! 3 = Some "12345" →
  fields segment !! 5 = Some "Smith^John" →
  ∃ result, parse_hl7_message hl7_message = Ok result ∧
    result !! "patient_id" = Some (PStr "12345") ∧
    result !! "last_name" = Some (PStr "Smith") ∧
    result !! "first_name" = Some (PStr "John").
Proof.
  intros Hone Hlen H3 H5.
  destruct (parse_result hl7_message) as (result & Hr & Hid & Hl & Hf & _).
  exists result. split; [done|].
  assert (is_pid segment) as Hpid.
  { assert (segment ∈ filter is_pid (segments hl7_message)) as Hin
      by (rewrite Hone; apply list_elem_of_here).
    by apply list_elem_of_filter in Hin as [? _]. }
  assert (pid_wf segment = true) as Hwf.
  { unfold pid_wf. apply Is_true_true in Hpid. rewrite Hpid. simpl.
    apply Nat.ltb_lt. lia. }
  assert (name_parts segment = ["Smith"; "John"]) as Hparts.
  { unfold name_parts, field. by rewrite H5. }
  assert (pid_named segment = true) as Hnamed.
  { unfold pid_named. by rewrite Hwf, Hparts. }
  rewrite (filter_only _ _ _ _ Hone pid_wf_is_pid), Hwf in Hid.
  rewrite (filter_only _ _ _ _ Hone pid_named_is_pid), Hnamed in Hl, Hf.
  simpl in Hid, Hl, Hf.
  unfold field in Hid. rewrite H3 in Hid.
  unfold name_part in Hl, Hf. rewrite Hparts in Hl, Hf.
  done.
Qed.

Lemma parse_pid_smith_john_witness :
  ∃ result,
    parse_hl7_message
      ("MSH|^~\&|A" +:+ String CR "PID|||12345||Smith^John||19800101|M") =
    Ok result ∧
    result !! "patient_id" = Some (PStr "12345") ∧
    result !! "last_name" = Some (PStr "Smith") ∧
    result !! "first_name" = Some (PStr "John").
Proof.
  apply (parse_pid_smith_john _ "PID|||12345||Smith^John||19800101|M").
  - reflexivity.
  - simpl. lia.
  - reflexivity.
  - reflexivity.
Defined.

(** C3: the [observations] sequence holds one observation
    [{id: field 3, value: field 5, units: field 6 or None}] for each [OBX]
    segment with more than 5 fields, in the order of the segments, and
    nothing else. *)
Theorem parse_observations (hl7_message : string) :
  ∃ result, parse_hl7_message hl7_message = Ok result ∧
    result !! "observations" =
      match observation_of <$> filter obx_wf (segments hl7_message) with
      | [] => None
      | o :: l => Some (PList (o :: l))
      end.
Proof.
  destruct (parse_result hl7_message) as (result & Hr & _ & _ & _ & Hobs).
  exists result. split; [done|]. rewrite Hobs. unfold obs_entry.
  by destruct (observation_of <$> filter obx_wf (segments hl7_message)).
Qed.

(** C5, as the code has it: [patient_id] is field 3 of the last [PID]
    segment with more than 5 fields; [last_name] and [first_name] are the
    first two components of field 5 of the last such segment whose field 5
    has at least two components, which may be an earlier segment. *)
Theorem parse_last_pid_wins (hl7_message : string) :
  ∃ result, parse_hl7_message hl7_message = Ok result ∧
    result !! "patient_id" =
      (λ segment, PStr (field segment 3)) <$>
        last (filter pid_wf (segments hl7_message)) ∧
    result !! "last_name" =
      (λ segment, PStr (name_part segment 0)) <$>
        last (filter pid_named (segments hl7_message)) ∧
    result !! "first_name" =
      (λ segment, PStr (name_part segment 1)) <$>
        last (filter pid_named (segments hl7_message)).
Proof.
  destruct (parse_result hl7_message) as (result & Hr & Hid & Hl & Hf & _).
  by exists result.
Qed.

(** C5, as stated, fails: in [two_pid_message] the last [PID] segment
    carries no name, and the record keeps the name of the first one beside
    the [patient_id] of the last. *)
Lemma parse_last_pid_keeps_earlier_name :
  (∃ result, parse_hl7_message two_pid_message = Ok result ∧
     last (filter pid_wf (segments two_pid_message)) = Some "PID|||2||Smith" ∧
     result !! "patient_id" = Some (PStr "2") ∧
     result !! "last_name" = Some (PStr "Doe") ∧
     result !! "first_name" = Some (PStr "Jane")) ∧
  ¬ (∀ hl7_message segment result from_last,
       2 ≤ length (filter pid_wf (segments hl7_message)) →
       last (filter pid_wf (segments hl7_message)) = Some segment →
       parse_hl7_message hl7_message = Ok result →
       parse_hl7_message segment = Ok from_last →
       result !! "patient_id" = from_last !! "patient_id" ∧
       result !! "last_name" = from_last !! "last_name" ∧
       result !! "first_name" = from_last !! "first_name").
Proof.
  destruct (parse_result two_pid_message) as (result & Hr & Hid & Hl & Hf & _).
  split.
  - exists result. split; [done|]. by rewrite Hid, Hl, Hf.
  - intros Hclaim.
    destruct (parse_result "PID|||2||Smith") as (from_last & Hs & _ & Hl' & _).
    destruct (Hclaim two_pid_message "PID|||2||Smith" result from_last)
      as (_ & Hlast & _); [vm_compute; lia | reflexivity | done | done |].
    rewrite Hl, Hl' in Hlast. vm_compute in Hlast. discriminate.
Qed.

(** C6: when the only [PID] segment has more than 5 fields and its field 5
    has no caret, the record has neither [last_name] nor [first_name]. *)
Theorem parse_single_component_name (hl7_message segment : string) :
  filter is_pid (segments hl7_message) = [segment] →
  5 < length (fields segment) →
  lacks CARET (field segment 5) = true →
  ∃ result, parse_hl7_message hl7_message = Ok result ∧
    result !! "last_name" = None ∧
    result !! "first_name" = None.
Proof.
  intros Hone Hlen Hcaret.
  destruct (parse_result hl7_message) as (result & Hr & _ & Hl & Hf & _).
  exists result. split; [done|].
  assert (pid_named segment = false) as Hnamed.
  { unfold pid_named, name_parts. rewrite (split_lacks _ _ Hcaret).
    apply andb_false_r. }
  rewrite (filter_only _ _ _ _ Hone pid_named_is_pid), Hnamed in Hl, Hf.
  done.
Qed.

Lemma parse_single_component_name_witness :
  ∃ result,
    parse_hl7_message ("MSH|^~\&|A" +:+ String CR "PID|||12345||Smith") =
    Ok result ∧
    result !! "last_name" = None ∧
    result !! "first_name" = None.
Proof.
  apply (parse_single_component_name _ "PID|||12345||Smith").
  - reflexivity.
  - simpl. lia.
  - reflexivity.
Defined.

(** C10: the record has the [observations] key exactly when some [OBX]
    segment of the message has more than 5 fields, and the list under the
    key is never empty. *)
Theorem parse_observations_key (hl7_message : string) :
  ∃ result, parse_hl7_message hl7_message = Ok result ∧
    (is_Some (result !! "observations") ↔
     ∃ segment, segment ∈ segments hl7_message ∧ obx_wf segment = true) ∧
    result !! "observations" ≠ Some (PList []).
Proof.
  destruct (parse_result hl7_message) as (result & Hr & _ & _ & _ & Hobs).
  exists result. split; [done|]. rewrite Hobs. split.
  - split.
    + intros Hsome.
      destruct (filter obx_wf (segments hl7_message)) as [|segment l] eqn:Hf.
      { by destruct Hsome. }
      assert (segment ∈ filter obx_wf (segments hl7_message)) as Hin
        by (rewrite Hf; apply list_elem_of_here).
      apply list_elem_of_filter in Hin as [Hwf Hin].
      exists segment. split; [done|]. by apply Is_true_true.
    + intros (segment & Hin & Hwf).
      assert (segment ∈ filter obx_wf (segments hl7_message)) as Hin'.
      { apply list_elem_of_filter. split; [by apply Is_true_true | done]. }
      destruct (filter obx_wf (segments hl7_message)); [|by eexists].
      by apply elem_of_nil in Hin'.
  - by destruct (observation_of <$> filter obx_wf (segments hl7_message)).
Qed.

End parse_properties.

(** ** Properties of [convert_fhir_to_hl7] *)

Section convert_properties.
Import FHIR.
Variable str_of : pyval → string.

Lemma get_str_field (d : pydict) (k s : string) :
  str_field d k s → get d k (PStr "") = PStr s.
Proof. unfold get. by intros [-> | [-> ->]]. Qed.

(** The message for a record whose first name entry is a mapping. *)
Lemma convert_named (fhir_data name : pydict) (rest : list pyval)
    (patient_id family given birth_date gender : string) :
  fhir_data !! "name" = Some (PList (PDict name :: rest)) →
  str_field fhir_data "id" patient_id →
  str_field name "family" family →
  first_given name given →
  str_field fhir_data "birthDate" birth_date →
  str_field fhir_data "gender" gender →
  convert_fhir_to_hl7 str_of fhir_data =
  Ok (MSH_HEADER +:+ String CR
        ("PID|||" +:+ patient_id +:+ "||" +:+ family +:+ "^" +:+ given +:+
         "||" +:+ birth_date +:+ "|" +:+ gender)).
Proof.
  intros Hname Hid Hfam Hgiv Hbd Hgen. unfold convert_fhir_to_hl7.
  rewrite Hname. cbn [truthy item0 index lookup list_lookup mbind outcome_bind
    get_receiver].
  rewrite (get_str_field _ _ _ Hid), (get_str_field _ _ _ Hfam),
    (get_str_field _ _ _ Hbd), (get_str_field _ _ _ Hgen).
  destruct Hgiv as [[l Hl] | [[Hn | Hn] ->]]; rewrite Hn || rewrite Hl;
    [unfold get; rewrite Hl|..]; done.
Qed.

Lemma convert_unnamed (fhir_data : pydict) :
  name_empty fhir_data → convert_fhir_to_hl7 str_of fhir_data = Ok MSH_HEADER.
Proof.
  unfold name_empty, convert_fhir_to_hl7.
  destruct (fhir_data !! "name") as [names|]; [|done]. by intros ->.
Qed.

Lemma convert_header_first (fhir_data : pydict) (hl7 : string) :
  convert_fhir_to_hl7 str_of fhir_data = Ok hl7 →
  ∃ rest, hl7 = MSH_HEADER +:+ rest.
Proof.
  unfold convert_fhir_to_hl7. intros H.
  destruct (fhir_data !! "name") as [names|];
    [destruct (truthy names)|];
    try (exists ""; by simplify_eq/=).
  destruct (item0 names) as [name|]; cbn [mbind outcome_bind] in H; [|done].
  destruct (get_receiver name) as [nm|]; cbn [mbind outcome_bind] in H;
    [|done].
  destruct (match nm !! "given" with
            | Some g =>
                if truthy g then item0 (get nm "given" (PList [PStr ""]))
                else Ok (PStr "")
            | None => Ok (PStr "")
            end) as [given|]; cbn [mbind outcome_bind] in H; [|done].
  eexists. by simplify_eq/=.
Qed.

(** The shapes of [name] on which the conversion goes through are the
    only ones. *)
Lemma convert_returns_only_convertible (fhir_data : pydict) (hl7 : string) :
  convert_fhir_to_hl7 str_of fhir_data = Ok hl7 → name_convertible fhir_data.
Proof.
  unfold convert_fhir_to_hl7, name_convertible, name_empty. intros H.
  destruct (fhir_data !! "name") as [names|]; [|by left].
  destruct (truthy names) eqn:Htruthy; [|by left]. right.
  destruct names as [| | | | s |[|name rest]|]; try done.
  { simpl in H. by destruct (String.eqb s ""). }
  destruct name as [| | | | | |name]; try done.
  exists name, rest. split; [done|].
  cbn [item0 index lookup list_lookup mbind outcome_bind get_receiver] in H.
  unfold get in H.
  destruct (name !! "given") as [g|]; [|done]. simpl in H.
  destruct (truthy g) eqn:Hg; [|by left]. right.
  destruct g as [| | | | s |[|x l]|]; try done; [right | left]; eauto.
Qed.

(** C4: the output starts with the fixed [MSH] header; it is the header
    alone when [name] is absent or empty; and when the first entry of
    [name] is a mapping it is the header, a carriage return and
    [PID|||{id}||{family}^{given}||{birthDate}|{gender}], absent parts being
    empty.  For Jane Doe that is [PID|||7||Doe^Jane||19900101|F]. *)
Theorem convert_fhir_to_hl7_message :
  (∀ fhir_data hl7,
     convert_fhir_to_hl7 str_of fhir_data = Ok hl7 →
     ∃ rest, hl7 = MSH_HEADER +:+ rest) ∧
  (∀ fhir_data,
     name_empty fhir_data →
     convert_fhir_to_hl7 str_of fhir_data = Ok MSH_HEADER) ∧
  (∀ fhir_data name rest patient_id family given birth_date gender,
     fhir_data !! "name" = Some (PList (PDict name :: rest)) →
     str_field fhir_data "id" patient_id →
     str_field name "family" family →
     first_given name given →
     str_field fhir_data "birthDate" birth_date →
     str_field fhir_data "gender" gender →
     convert_fhir_to_hl7 str_of fhir_data =
     Ok (MSH_HEADER +:+ String CR
           ("PID|||" +:+ patient_id +:+ "||" +:+ family +:+ "^" +:+ given +:+
            "||" +:+ birth_date +:+ "|" +:+ gender))) ∧
  convert_fhir_to_hl7 str_of ∅ = Ok MSH_HEADER ∧
  convert_fhir_to_hl7 str_of jane_doe =
    Ok (MSH_HEADER +:+ String CR "PID|||7||Doe^Jane||19900101|F").
Proof.
  split; [apply convert_header_first|].
  split; [apply convert_unnamed|].
  split; [apply convert_named|].
  split; reflexivity.
Qed.

(** C7, as the code has it: the conversion returns a string whenever
    [name] is absent, empty, or a list whose first entry is a mapping whose
    [given] is absent, empty, a list or a text. *)
Theorem convert_fhir_to_hl7_returns (fhir_data : pydict) :
  name_convertible fhir_data →
  ∃ hl7, convert_fhir_to_hl7 str_of fhir_data = Ok hl7.
Proof.
  intros [Hempty | (name & rest & Hname & Hgiven)].
  { eexists. by apply convert_unnamed. }
  unfold convert_fhir_to_hl7. rewrite Hname.
  cbn [truthy item0 index lookup list_lookup mbind outcome_bind get_receiver].
  unfold get.
  destruct (name !! "given") as [g|]; [|by eexists].
  cbn [default from_option].
  destruct (truthy g) eqn:Hg; [|by eexists].
  destruct Hgiven as [Hfalse | [(x & l & ->) | (s & ->)]].
  - by rewrite Hfalse in Hg.
  - eexists. reflexivity.
  - cbn [truthy] in Hg. cbn [item0 id]. destruct (String.eqb s ""); [done|].
    eexists. reflexivity.
Qed.

End convert_properties.

(** C4 at a record with a family name only. *)
Lemma convert_fhir_to_hl7_message_witness :
  FHIR.convert_fhir_to_hl7 (λ _, "")
    (<["name" := PList [PDict (<["family" := PStr "Roe"]> ∅)]]> ∅) =
  Ok (FHIR.MSH_HEADER +:+ String CR "PID|||||Roe^|||").
Proof.
  apply (proj1 (proj2 (proj2 (convert_fhir_to_hl7_message (λ _, ""))))
           _ (<["family" := PStr "Roe"]> ∅) [] "" "Roe" "" "" "").
  - reflexivity.
  - right. split; reflexivity.
  - left. reflexivity.
  - right. split; [left|]; reflexivity.
  - right. split; reflexivity.
  - right. split; reflexivity.
Defined.

Lemma convert_fhir_to_hl7_returns_witness :
  ∃ hl7, FHIR.convert_fhir_to_hl7 (λ _, "") FHIR.jane_doe = Ok hl7.
Proof.
  apply convert_fhir_to_hl7_returns.
  right. exists (<["family" := PStr "Doe"]>
                 (<["given" := PList [PStr "Jane"]]> ∅)), [].
  split; [reflexivity|]. vm_compute. right. left. eauto.
Defined.

(** C7, as stated, fails: on [{name: "Doe"}] the conversion raises
    [AttributeError], as the first character of the text has no [get]. *)
Lemma convert_fhir_to_hl7_raises :
  (∀ str_of, FHIR.convert_fhir_to_hl7 str_of FHIR.name_as_text =
             Raise AttributeError) ∧
  ¬ (∀ str_of fhir_data, ∃ hl7,
       FHIR.convert_fhir_to_hl7 str_of fhir_data = Ok hl7).
Proof.
  split; [reflexivity|].
  intros H. by destruct (H (λ _, "") FHIR.name_as_text).
Qed.

(** ** The round trip [parse_hl7_message (convert_fhir_to_hl7 x)] *)

Section roundtrip.
Import HL7 Segment Step FHIR.

Lemma lacks_app (c : ascii) (a b : string) :
  lacks c (a +:+ b) = lacks c a && lacks c b.
Proof.
  induction a as [|c' a IH]; simpl; [done|].
  by rewrite IH, andb_assoc.
Qed.

Lemma split_app_sep (c : ascii) (a b : string) :
  lacks c a = true → split c (a +:+ String c b) = a :: split c b.
Proof.
  induction a as [|c' a IH]; simpl.
  - by rewrite Ascii.eqb_refl.
  - destruct (Ascii.eqb c' c); simpl; [done|].
    intros H. by rewrite (IH H).
Qed.

(** A message of the header and one further line without a carriage
    return has these two segments. *)
Lemma segments_header_line (line : string) :
  lacks CR line = true →
  segments (MSH_HEADER +:+ String CR line) = [MSH_HEADER; line].
Proof.
  intros Hline. unfold segments.
  rewrite split_app_sep by reflexivity. by rewrite split_lacks.
Qed.

Lemma pid_line_not_obx (rest : string) : obx_wf ("PID|||" +:+ rest) = false.
Proof.
  unfold obx_wf, is_obx, segment_type, field, fields. reflexivity.
Qed.

Lemma parse_header_line (line : string) :
  lacks CR line = true → obx_wf line = false →
  ∃ result, parse_hl7_message (MSH_HEADER +:+ String CR line) = Ok result ∧
    result !! "observations" = None.
Proof.
  intros Hline Hobx.
  destruct (parse_result (MSH_HEADER +:+ String CR line))
    as (result & Hr & _ & _ & _ & Hobs).
  exists result. split; [done|].
  rewrite Hobs, segments_header_line, !filter_cons, filter_nil by done.
  rewrite Hobx. by repeat case_decide.
Qed.

Variable str_of : pyval → string.

(** C8, as the code has it: when the [id], family name, first given name,
    [birthDate] and [gender] hold no carriage return (or [name] is absent
    or empty), the record parsed back from the converted message has no
    [observations] entry; a record that had one loses it. *)
Theorem roundtrip_drops_observations :
  (∀ fhir_data,
     name_empty fhir_data →
     ∃ hl7 result,
       convert_fhir_to_hl7 str_of fhir_data = Ok hl7 ∧
       parse_hl7_message hl7 = Ok result ∧
       result !! "observations" = None) ∧
  (∀ fhir_data name rest patient_id family given birth_date gender,
     fhir_data !! "name" = Some (PList (PDict name :: rest)) →
     str_field fhir_data "id" patient_id →
     str_field name "family" family →
     first_given name given →
     str_field fhir_data "birthDate" birth_date →
     str_field fhir_data "gender" gender →
     lacks CR patient_id = true →
     lacks CR family = true →
     lacks CR given = true →
     lacks CR birth_date = true →
     lacks CR gender = true →
     ∃ hl7 result,
       convert_fhir_to_hl7 str_of fhir_data = Ok hl7 ∧
       parse_hl7_message hl7 = Ok result ∧
       result !! "observations" = None) ∧
  (∃ fhir_data hl7 result,
     is_Some (fhir_data !! "observations") ∧
     convert_fhir_to_hl7 str_of fhir_data = Ok hl7 ∧
     parse_hl7_message hl7 = Ok result ∧
     result !! "observations" = None).
Proof.
  assert (∀ fhir_data name rest patient_id family given birth_date gender,
     fhir_data !! "name" = Some (PList (PDict name :: rest)) →
     str_field fhir_data "id" patient_id →
     str_field name "family" family →
     first_given name given →
     str_field fhir_data "birthDate" birth_date →
     str_field fhir_data "gender" gender →
     lacks CR patient_id = true →
     lacks CR family = true →
     lacks CR given = true →
     lacks CR birth_date = true →
     lacks CR gender = true →
     ∃ hl7 result,
       convert_fhir_to_hl7 str_of fhir_data = Ok hl7 ∧
       parse_hl7_message hl7 = Ok result ∧
       result !! "observations" = None) as Hnamed.
  { intros fhir_data name rest patient_id family given birth_date gender
      Hname Hid Hfam Hgiv Hbd Hgen Lid Lfam Lgiv Lbd Lgen.
    eexists.
    edestruct (parse_header_line
      ("PID|||" +:+ patient_id +:+ "||" +:+ family +:+ "^" +:+ given +:+
       "||" +:+ birth_date +:+ "|" +:+ gender)) as (result & Hr & Hobs).
    - rewrite !lacks_app, Lid, Lfam, Lgiv, Lbd, Lgen. reflexivity.
    - apply pid_line_not_obx.
    - exists result. split; [|done].
      by apply (convert_named _ _ name rest). }
  split; [|split; [exact Hnamed|]].
  - intros fhir_data Hempty. exists MSH_HEADER.
    destruct (parse_result MSH_HEADER) as (result & Hr & _ & _ & _ & Hobs).
    exists result. split; [by apply convert_unnamed|]. split; [done|].
    by rewrite Hobs.
  - exists patient_with_observations.
    destruct (Hnamed patient_with_observations (<["family" := PStr "Doe"]> ∅)
                [] "" "Doe" "" "" "") as (hl7 & result & H);
      try reflexivity;
      try (right; split; reflexivity);
      try (left; reflexivity).
    { right. split; [left|]; reflexivity. }
    exists hl7, result. split; [|done]. by eexists.
Qed.

End roundtrip.

Lemma roundtrip_drops_observations_witness :
  ∃ hl7 result,
    FHIR.convert_fhir_to_hl7 (λ _, "") FHIR.jane_doe = Ok hl7 ∧
    HL7.parse_hl7_message hl7 = Ok result ∧
    result !! "observations" = None.
Proof.
  apply (proj1 (proj2 (roundtrip_drops_observations (λ _, "")))
           FHIR.jane_doe
           (<["family" := PStr "Doe"]> (<["given" := PList [PStr "Jane"]]> ∅))
           [] "7" "Doe" "Jane" "19900101" "F").
  - reflexivity.
  - left. reflexivity.
  - left. reflexivity.
  - left. exists []. reflexivity.
  - left. reflexivity.
  - left. reflexivity.
  - reflexivity.
  - reflexivity.
  - reflexivity.
  - reflexivity.
  - reflexivity.
Defined.

(** C8, as stated, fails: an [id] that holds a carriage return followed by
    [OBX|1|2|3|4|5] comes back from the round trip as an observation. *)
Lemma roundtrip_injects_observation :
  (∃ hl7 result,
     FHIR.convert_fhir_to_hl7 (λ _, "") FHIR.id_with_segment = Ok hl7 ∧
     HL7.parse_hl7_message hl7 = Ok result ∧
     is_Some (result !! "observations")) ∧
  ¬ (∀ str_of fhir_data hl7 result,
       FHIR.convert_fhir_to_hl7 str_of fhir_data = Ok hl7 →
       HL7.parse_hl7_message hl7 = Ok result →
       result !! "observations" = None).
Proof.
  set (hl7 := FHIR.MSH_HEADER +:+ String CR
                ("PID|||7" +:+ String CR "OBX|1|2|3|4|5||Doe^Jane||19900101|F")).
  assert (FHIR.convert_fhir_to_hl7 (λ _, "") FHIR.id_with_segment = Ok hl7)
    as Hconv by reflexivity.
  destruct (parse_result hl7) as (result & Hr & _ & _ & _ & Hobs).
  assert (is_Some (result !! "observations")) as Hsome.
  { rewrite Hobs. vm_compute. by eexists. }
  split.
  - by exists hl7, result.
  - intros Hclaim. rewrite (Hclaim _ _ _ _ Hconv Hr) in Hsome.
    by destruct Hsome.
Qed.

(** ** Properties of [call_external_api] *)

Section call_properties.
Import Api.

Lemma all_chars_complete (c : ascii) : In c all_chars.
Proof.
  rewrite <- (ascii_nat_embedding c). apply in_map, in_seq.
  pose proof (nat_ascii_bounded c). lia.
Qed.

(** Two characters have the same upper case exactly when they are the same
    letter. *)
Lemma ascii_upper_same_letter (c d : ascii) :
  Ascii.eqb (ascii_upper c) (ascii_upper d) = same_letter c d.
Proof.
  assert (forallb (λ c, forallb (λ d,
            Bool.eqb (Ascii.eqb (ascii_upper c) (ascii_upper d))
                     (same_letter c d)) all_chars) all_chars = true) as Hall
    by (vm_compute; reflexivity).
  rewrite forallb_forall in Hall.
  specialize (Hall c (all_chars_complete c)).
  rewrite forallb_forall in Hall.
  specialize (Hall d (all_chars_complete d)).
  by apply Bool.eqb_prop in Hall.
Qed.

Lemma upper_ascii_ci_eqb (s t : string) :
  upper_ascii s = upper_ascii t ↔ ci_eqb s t = true.
Proof.
  revert t. induction s as [|c s IH]; intros [|d t]; simpl; try done.
  rewrite andb_true_iff, <- IH, <- ascii_upper_same_letter, Ascii.eqb_eq.
  split; [by intros [= -> ->] | by intros [-> ->]].
Qed.

Lemma upper_ascii_verb_name (v : verb) : upper_ascii (verb_name v) = verb_name v.
Proof. by destruct v. Qed.

Lemma elem_of_supported (s : string) : s ∈ supported ↔ ∃ v, s = verb_name v.
Proof.
  unfold supported. rewrite list_elem_of_fmap. split.
  - intros (v & -> & _). by exists v.
  - intros (v & ->). exists v. split; [done|].
    destruct v; set_solver.
Qed.

Variable upper : string → string.
Variable send : request → outcome response.

(** The exceptions of an attempted request are those of the request: what
    the library raises, [HTTPError] for a status from 400 to 599, or
    [JSONDecodeError] for a body that is not JSON. *)
Lemma attempt_raises (req : request) (e : exn) :
  (attempt send req).2 = Raise e →
  send req = Raise e ∨
  ∃ r, send req = Ok r ∧ (e = HTTPError (status_code r) ∨ e = JSONDecodeError).
Proof.
  unfold attempt, raise_for_status. simpl.
  destruct (send req) as [r|e']; simpl; [|intros [= ->]; by left].
  intros He. right. exists r. split; [done|].
  destruct ((400 <=? status_code r)%Z && (status_code r <? 600)%Z);
    simpl in He; [left; congruence|].
  destruct (String.eqb (content r) ""); [done|].
  destruct (json r); [done|]. right. congruence.
Qed.

(** C9, as the code has it: the forwarder supports exactly [GET], [POST],
    [PUT] and [DELETE], compared after [upper], which on ASCII text is
    equality up to the case of the letters.  On any other method it raises
    [ValueError] and attempts no request.  On a supported method it
    attempts the one request of that verb, and an exception then is one of
    the request: what the library raises, [HTTPError], or
    [JSONDecodeError]. *)
Theorem call_external_api_methods :
  (∀ s, is_ascii s = true → upper s = upper_ascii s) →
  ∀ (url method : string) (data headers : option pydict),
    (upper method ∈ supported →
     ∃ req,
       call_external_api upper send url method data headers =
         attempt send req ∧
       verb_name (req_verb req) = upper method ∧
       req_url req = url ∧
       (call_external_api upper send url method data headers).1 = [req] ∧
       ∀ e, (call_external_api upper send url method data headers).2 =
              Raise e →
            send req = Raise e ∨
            ∃ r, send req = Ok r ∧
                 (e = HTTPError (status_code r) ∨ e = JSONDecodeError)) ∧
    (upper method ∉ supported →
     call_external_api upper send url method data headers =
       ([], Raise (ValueError ("Unsupported HTTP method: " +:+ method)))) ∧
    (is_ascii method = true →
     (upper method ∈ supported ↔
      ∃ v, ci_eqb method (verb_name v) = true)).
Proof.
  intros Hupper url method data headers.
  split; [|split].
  - intros Hin.
    assert (∀ req,
      call_external_api upper send url method data headers =
        attempt send req →
      verb_name (req_verb req) = upper method →
      req_url req = url →
      ∃ req,
        call_external_api upper send url method data headers =
          attempt send req ∧
        verb_name (req_verb req) = upper method ∧
        req_url req = url ∧
        (call_external_api upper send url method data headers).1 = [req] ∧
        ∀ e, (call_external_api upper send url method data headers).2 =
               Raise e →
             send req = Raise e ∨
             ∃ r, send req = Ok r ∧
                  (e = HTTPError (status_code r) ∨ e = JSONDecodeError))
      as Hreq.
    { intros req Hcall Hverb Hurl. exists req.
      rewrite Hcall. repeat split; try done.
      intros e. apply attempt_raises. }
    apply elem_of_supported in Hin as [v Hv].
    unfold call_external_api in *. rewrite Hv in *.
    destruct v; simpl; eapply Hreq; reflexivity.
  - intros Hnot. unfold call_external_api.
    destruct (String.eqb_spec (upper method) "GET") as [Heq|_].
    { destruct Hnot. rewrite Heq. apply elem_of_supported. by exists GET. }
    destruct (String.eqb_spec (upper method) "POST") as [Heq|_].
    { destruct Hnot. rewrite Heq. apply elem_of_supported. by exists POST. }
    destruct (String.eqb_spec (upper method) "PUT") as [Heq|_].
    { destruct Hnot. rewrite Heq. apply elem_of_supported. by exists PUT. }
    destruct (String.eqb_spec (upper method) "DELETE") as [Heq|_].
    { destruct Hnot. rewrite Heq. apply elem_of_supported. by exists DELETE. }
    done.
  - intros Hascii. rewrite (Hupper _ Hascii), elem_of_supported.
    split; intros [v Hv]; exists v.
    + apply upper_ascii_ci_eqb. by rewrite upper_ascii_verb_name.
    + apply upper_ascii_ci_eqb in Hv. by rewrite upper_ascii_verb_name in Hv.
Qed.

End call_properties.

(** C9 at the method ["Delete"], with nothing answering. *)
Lemma call_external_api_methods_witness :
  Api.call_external_api Api.upper_ascii (λ _, Raise RequestException)
    "http://localhost/x" "Delete" None None =
  ([{| Api.req_verb := Api.DELETE; Api.req_url := "http://localhost/x";
       Api.req_json := None; Api.req_headers := ∅ |}],
   Raise RequestException) ∧
  Api.call_external_api Api.upper_ascii (λ _, Raise RequestException)
    "http://localhost/x" "PATCH" None None =
  ([], Raise (ValueError "Unsupported HTTP method: PATCH")).
Proof.
  pose proof (call_external_api_methods Api.upper_ascii
                (λ _, Raise RequestException)
                (λ s _, eq_refl) "http://localhost/x" "PATCH" None None)
    as (_ & Hpatch & _).
  split; [reflexivity|].
  apply Hpatch. vm_compute. intros H.
  repeat (apply elem_of_cons in H as [H|H]; [discriminate|]).
  by apply elem_of_nil in H.
Defined.

(** C9, as stated, fails: a [GET] answered with status 200 and a body that
    is not JSON raises [JSONDecodeError], which is a [ValueError]; so does
    a request for which the library raises [MissingSchema], as it does for a
    URL without a scheme. *)
Lemma call_external_api_value_error :
  ((Api.call_external_api Api.upper_ascii
      (λ _, Ok {| Api.status_code := 200; Api.content := "<html>";
                  Api.json := None |})
      "http://localhost/x" "GET" None None).2 = Raise JSONDecodeError ∧
   is_value_error JSONDecodeError = true) ∧
  ((Api.call_external_api Api.upper_ascii (λ _, Raise MissingSchema)
      "foo" "GET" None None).2 = Raise MissingSchema ∧
   is_value_error MissingSchema = true) ∧
  ¬ (∀ upper send url method data headers e,
       upper method ∈ Api.supported →
       (Api.call_external_api upper send url method data headers).2 =
         Raise e →
       is_value_error e = false).
Proof.
  split; [split; reflexivity|]. split; [split; reflexivity|].
  intros Hclaim.
  specialize (Hclaim Api.upper_ascii
    (λ _, Ok {| Api.status_code := 200; Api.content := "<html>";
                Api.json := None |})
    "http://localhost/x" "GET" None None JSONDecodeError).
  assert (is_value_error JSONDecodeError = false) as Hfalse.
  { apply Hclaim; [|reflexivity].
    apply elem_of_supported. by exists Api.GET. }
  discriminate.
Qed.

(** * Further properties *)

(** ** More on [parse_hl7_message] *)

Section parse_more.
Import HL7 Segment Step Props.

Lemma split_app (c : ascii) (a b : string) :
  split c (a +:+ String c b) = split c a ++ split c b.
Proof.
  induction a as [|c' a IH]; simpl.
  - by rewrite Ascii.eqb_refl.
  - rewrite IH. destruct (Ascii.eqb c' c); [done|].
    by destruct (split_cons c a) as (w & ws & ->).
Qed.

Lemma step_neither (result : pydict) (segment : string) :
  pid_wf segment = false → obx_wf segment = false →
  step result segment = result.
Proof. unfold step. by intros -> ->. Qed.

Lemma step_dom (result : pydict) (segment : string) :
  dom result ⊆ record_keys → dom (step result segment) ⊆ record_keys.
Proof.
  unfold step. intros Hdom.
  assert (∀ (k : string) (v : pyval) (m : pydict),
            k ∈ record_keys → dom m ⊆ record_keys →
            dom (<[k := v]> m) ⊆ record_keys) as Hins.
  { intros k v m Hk Hm. rewrite dom_insert_L.
    apply union_subseteq. split; [by apply singleton_subseteq_l | done]. }
  destruct (pid_wf segment);
    [destruct (2 <=? length (name_parts segment))|
     destruct (obx_wf segment)];
    repeat (apply Hins; [by vm_compute|]); done.
Qed.

Lemma fold_step_dom (l : list string) (result : pydict) :
  dom result ⊆ record_keys → dom (fold_left step l result) ⊆ record_keys.
Proof.
  revert result. induction l as [|segment l IH]; intros result Hdom; simpl.
  - done.
  - by apply IH, step_dom.
Qed.

(** X1: the record that the parser returns has no key besides
    [patient_id], [last_name], [first_name] and [observations]. *)
Theorem parse_keys (hl7_message : string) :
  ∃ result, parse_hl7_message hl7_message = Ok result ∧
    dom result ⊆ record_keys.
Proof.
  eexists. split; [apply parse_hl7_message_fold|].
  apply fold_step_dom. rewrite dom_empty_L. apply empty_subseteq.
Qed.

Lemma pid_named_wf (segment : string) : pid_named segment → pid_wf segment.
Proof. unfold pid_named. by intros [? _]%andb_prop_elim. Qed.

(** X2: [last_name] and [first_name] are present together or not at all,
    and a record that has them has a [patient_id]. *)
Theorem parse_names_together (hl7_message : string) :
  ∃ result, parse_hl7_message hl7_message = Ok result ∧
    (is_Some (result !! "last_name") ↔ is_Some (result !! "first_name")) ∧
    (is_Some (result !! "last_name") → is_Some (result !! "patient_id")).
Proof.
  destruct (parse_result hl7_message) as (result & Hr & Hid & Hl & Hf & _).
  exists result. split; [done|]. rewrite Hid, Hl, Hf, !fmap_is_Some.
  split; [done|].
  intros [segment Hlast]. apply last_is_Some. intros Hnil.
  apply last_Some_elem_of, list_elem_of_filter in Hlast as [Hnamed Hin].
  assert (segment ∈ filter pid_wf (segments hl7_message)) as Hin'
    by (apply list_elem_of_filter; split; [by apply pid_named_wf | done]).
  rewrite Hnil in Hin'. by apply elem_of_nil in Hin'.
Qed.

Lemma parse_joined (a b : string) :
  parse_hl7_message (a +:+ String CR b) =
  (result ← parse_hl7_message a; for_each parse_segment result (segments b)).
Proof.
  unfold parse_hl7_message, segments. by rewrite split_app, for_each_app.
Qed.

(** X3: parsing two messages joined by a carriage return is parsing the
    first and going on with the segments of the second from the record
    reached. *)
Theorem parse_concat (a b : string) :
  parse_hl7_message (a +:+ String CR b) =
  (result ← parse_hl7_message a; for_each parse_segment result (segments b)).
Proof. apply parse_joined. Qed.

Lemma for_each_skip_empty (l : list string) (result : pydict) :
  for_each parse_segment result (filter (λ s, s ≠ "") l) =
  for_each parse_segment result l.
Proof.
  revert result. induction l as [|segment l IH]; intros result; [done|].
  rewrite filter_cons. case_decide as Hne; simpl.
  - destruct (parse_segment result segment); simpl; [apply IH | done].
  - assert (segment = "") as -> by (by destruct (decide (segment = ""))).
    simpl. apply IH.
Qed.

(** X4: empty segments do not count: the parser gives what it gives on the
    segments that are not empty, so a carriage return at the end or at the
    start of a message changes nothing. *)
Theorem parse_skips_empty_segments (hl7_message : string) :
  parse_hl7_message hl7_message =
    for_each parse_segment ∅ (filter (λ s, s ≠ "") (segments hl7_message)) ∧
  parse_hl7_message (hl7_message +:+ String CR "") =
    parse_hl7_message hl7_message ∧
  parse_hl7_message (String CR hl7_message) = parse_hl7_message hl7_message.
Proof.
  split; [by rewrite for_each_skip_empty|]. split.
  - rewrite parse_joined. by destruct (parse_hl7_message hl7_message).
  - apply (parse_joined "" hl7_message).
Qed.

Lemma fold_step_neither (l : list string) (result : pydict) :
  (∀ segment, segment ∈ l → pid_wf segment = false ∧ obx_wf segment = false) →
  fold_left step l result = result.
Proof.
  revert result. induction l as [|segment l IH]; intros result Hall; simpl.
  - done.
  - destruct (Hall segment) as [Hpid Hobx]; [apply list_elem_of_here|].
    rewrite step_neither by done.
    apply IH. intros s Hs. apply Hall. by apply list_elem_of_further.
Qed.

(** X5: the record is empty exactly when the message has no [PID] and no
    [OBX] segment with more than 5 fields.  Segments are cut at carriage
    returns only: the sample message of the [__main__] block, written with
    line feeds, is one [MSH] segment and gives the empty record. *)
Theorem parse_empty_record (hl7_message : string) :
  parse_hl7_message hl7_message = Ok ∅ ↔
  ∀ segment, segment ∈ segments hl7_message →
    pid_wf segment = false ∧ obx_wf segment = false.
Proof.
  split.
  - intros Hempty segment Hin.
    destruct (parse_result hl7_message) as (result & Hr & Hid & _ & _ & Hobs).
    rewrite Hempty in Hr. injection Hr as <-.
    rewrite lookup_empty in Hid, Hobs. split.
    + destruct (pid_wf segment) eqn:Hwf; [|done].
      assert (segment ∈ filter pid_wf (segments hl7_message)) as Hin'
        by (apply list_elem_of_filter; split; [by rewrite Hwf | done]).
      symmetry in Hid. apply fmap_None, last_None in Hid.
      rewrite Hid in Hin'. by apply elem_of_nil in Hin'.
    + destruct (obx_wf segment) eqn:Hwf; [|done].
      assert (segment ∈ filter obx_wf (segments hl7_message)) as Hin'
        by (apply list_elem_of_filter; split; [by rewrite Hwf | done]).
      destruct (filter obx_wf (segments hl7_message)); [|done].
      by apply elem_of_nil in Hin'.
  - intros Hall. rewrite parse_hl7_message_fold.
    by rewrite fold_step_neither.
Qed.

End parse_more.

Lemma parse_empty_record_witness :
  HL7.parse_hl7_message Props.sample_message = Ok ∅.
Proof.
  apply (proj2 (parse_empty_record Props.sample_message)).
  intros segment Hin. vm_compute in Hin.
  apply list_elem_of_singleton in Hin as ->. split; reflexivity.
Defined.

(** ** More on [convert_fhir_to_hl7] and the round trip *)

Section convert_more.
Import HL7 Segment Step FHIR.
Variable str_of : pyval → string.

Lemma append_assoc (a b c : string) : (a +:+ b) +:+ c = a +:+ b +:+ c.
Proof.
  induction a as [|x a IH]; [done|].
  change (String x ((a +:+ b) +:+ c) = String x (a +:+ b +:+ c)).
  by f_equal.
Qed.

(** The fields of the [PID] line that the conversion writes, when the
    patient id and the two names hold no pipe. *)
Lemma pid_line_fields (patient_id family given tail : string) :
  lacks PIPE patient_id = true →
  lacks PIPE family = true →
  lacks PIPE given = true →
  fields ("PID|||" +:+ patient_id +:+ "||" +:+ family +:+ "^" +:+ given +:+
          "||" +:+ tail) =
  ["PID"; ""; ""; patient_id; ""; family +:+ "^" +:+ given; ""] ++
  split PIPE tail.
Proof.
  intros Hid Hfam Hgiv. unfold fields.
  change ("PID|||" +:+ patient_id +:+ "||" +:+ family +:+ "^" +:+ given +:+
          "||" +:+ tail)
    with ("PID" +:+ String PIPE ("" +:+ String PIPE ("" +:+ String PIPE
            (patient_id +:+ String PIPE ("" +:+ String PIPE
               (family +:+ "^" +:+ given +:+ String PIPE
                  ("" +:+ String PIPE tail))))))).
  rewrite !(split_app_sep PIPE "PID"), !(split_app_sep PIPE "") by done.
  rewrite (split_app_sep PIPE patient_id), (split_app_sep PIPE "") by done.
  rewrite <- (append_assoc family "^"), <- (append_assoc (family +:+ "^")).
  rewrite (split_app_sep PIPE ((family +:+ "^") +:+ given)).
  - rewrite (split_app_sep PIPE "") by done. by rewrite append_assoc.
  - rewrite !lacks_app, Hfam, Hgiv. reflexivity.
Qed.

(** X6: what comes back from the round trip.  For a record with a name
    whose id, family name and first given name hold no carriage return, no
    pipe and (the names) no caret, and whose [birthDate] and [gender] hold
    no carriage return, the parser reads back from the converted message
    exactly [{patient_id: id, last_name: family, first_name: given}], an
    absent part being the empty string; [birthDate] and [gender] are not
    read back. *)
Theorem roundtrip_patient
    (fhir_data name : pydict) (rest : list pyval)
    (patient_id family given birth_date gender : string) :
  fhir_data !! "name" = Some (PList (PDict name :: rest)) →
  str_field fhir_data "id" patient_id →
  str_field name "family" family →
  first_given name given →
  str_field fhir_data "birthDate" birth_date →
  str_field fhir_data "gender" gender →
  lacks CR patient_id = true → lacks PIPE patient_id = true →
  lacks CR family = true → lacks PIPE family = true →
  lacks CARET family = true →
  lacks CR given = true → lacks PIPE given = true →
  lacks CARET given = true →
  lacks CR birth_date = true →
  lacks CR gender = true →
  ∃ hl7,
    convert_fhir_to_hl7 str_of fhir_data = Ok hl7 ∧
    parse_hl7_message hl7 =
    Ok (<["first_name" := PStr given]>
        (<["last_name" := PStr family]>
         (<["patient_id" := PStr patient_id]> ∅))).
Proof.
  intros Hname Hid Hfam Hgiv Hbd Hgen Cid Pid Cfam Pfam Kfam Cgiv Pgiv Kgiv
    Cbd Cgen.
  eexists. split; [by apply (convert_named _ _ name rest)|].
  rewrite parse_hl7_message_fold, segments_header_line
    by (rewrite !lacks_app, Cid, Cfam, Cgiv, Cbd, Cgen; reflexivity).
  simpl. rewrite (step_neither ∅ MSH_HEADER) by reflexivity.
  unfold step, pid_named, pid_wf, is_pid, segment_type, name_part, name_parts,
    field.
  rewrite pid_line_fields by done.
  destruct (split_cons PIPE (birth_date +:+ "|" +:+ gender)) as (w & ws & ->).
  cbn [app lookup list_lookup default from_option id length].
  change (family +:+ "^" +:+ given) with (family +:+ String CARET given).
  rewrite split_app_sep, (split_lacks CARET given) by done.
  reflexivity.
Qed.

(** X7: a record without a name converts to the header alone, and the
    header parses to the empty record: its [id], [gender] and [birthDate]
    are not written. *)
Theorem roundtrip_unnamed (fhir_data : pydict) :
  name_empty fhir_data →
  convert_fhir_to_hl7 str_of fhir_data = Ok MSH_HEADER ∧
  parse_hl7_message MSH_HEADER = Ok ∅.
Proof.
  intros Hempty. split; [by apply convert_unnamed|].
  rewrite parse_hl7_message_fold. reflexivity.
Qed.

(** X8: of the name entries only the first is used, and of its given
    names only the first: the others do not change the message. *)
Theorem convert_first_name_only
    (fhir_data name : pydict) (entry given : pyval)
    (entries entries' givens givens' : list pyval) :
  convert_fhir_to_hl7 str_of
    (<["name" := PList (entry :: entries)]> fhir_data) =
  convert_fhir_to_hl7 str_of
    (<["name" := PList (entry :: entries')]> fhir_data) ∧
  convert_fhir_to_hl7 str_of
    (<["name" :=
         PList (PDict (<["given" := PList (given :: givens)]> name)
                :: entries)]> fhir_data) =
  convert_fhir_to_hl7 str_of
    (<["name" :=
         PList (PDict (<["given" := PList (given :: givens')]> name)
                :: entries')]> fhir_data).
Proof.
  unfold convert_fhir_to_hl7, get.
  rewrite !lookup_insert_eq, !lookup_insert_ne by done.
  split; [reflexivity|]. cbn [truthy item0 index lookup list_lookup mbind
    outcome_bind get_receiver].
  rewrite !lookup_insert_eq, !lookup_insert_ne by done. reflexivity.
Qed.

End convert_more.

Lemma roundtrip_patient_witness :
  ∃ hl7,
    FHIR.convert_fhir_to_hl7 (λ _, "") FHIR.jane_doe = Ok hl7 ∧
    HL7.parse_hl7_message hl7 =
    Ok (<["first_name" := PStr "Jane"]>
        (<["last_name" := PStr "Doe"]>
         (<["patient_id" := PStr "7"]> ∅))).
Proof.
  apply (roundtrip_patient (λ _, "") FHIR.jane_doe
           (<["family" := PStr "Doe"]> (<["given" := PList [PStr "Jane"]]> ∅))
           [] "7" "Doe" "Jane" "19900101" "F").
  - reflexivity.
  - left. reflexivity.
  - left. reflexivity.
  - left. exists []. reflexivity.
  - left. reflexivity.
  - left. reflexivity.
  - reflexivity.
  - reflexivity.
  - reflexivity.
  - reflexivity.
  - reflexivity.
  - reflexivity.
  - reflexivity.
  - reflexivity.
  - reflexivity.
  - reflexivity.
Defined.

Lemma roundtrip_unnamed_witness :
  FHIR.convert_fhir_to_hl7 (λ _, "")
    (<["id" := PStr "7"]> (<["name" := PList []]> ∅)) = Ok FHIR.MSH_HEADER ∧
  HL7.parse_hl7_message FHIR.MSH_HEADER = Ok ∅.
Proof.
  apply roundtrip_unnamed. reflexivity.
Defined.

(** ** More on [call_external_api] *)

Section call_more.
Import Api Props.
Variable upper : string → string.
Variable send : request → outcome response.

Lemma request_headers_default (headers : option pydict) :
  match headers with
  | Some h => if truthy (PDict h) then h else ∅
  | None => ∅
  end = default ∅ headers.
Proof.
  destruct headers as [h|]; [|done]. simpl.
  case_bool_decide as Hh; [by subst | done].
Qed.

Lemma call_supported (v : verb) (url method : string)
    (data headers : option pydict) :
  upper method = verb_name v →
  call_external_api upper send url method data headers =
  attempt send (request_of v url data headers).
Proof.
  intros Hv. unfold call_external_api, request_of.
  rewrite Hv, request_headers_default. by destruct v.
Qed.

(** X9: for a method that upper-cases to the name of [v], the forwarder
    makes the request [request_of v]: the URL as given, [data] as the JSON
    body of a [POST] or [PUT] but never of a [GET] or [DELETE], and no
    headers when [headers] is [None] or empty. *)
Theorem call_external_api_request (v : verb) (url method : string)
    (data headers : option pydict) :
  upper method = verb_name v →
  call_external_api upper send url method data headers =
  attempt send (request_of v url data headers).
Proof. apply call_supported. Qed.

(** X10: when the server answers a supported method with a status from
    400 to 599, the forwarder raises [HTTPError], whatever the body. *)
Theorem call_external_api_http_error (v : verb) (url method : string)
    (data headers : option pydict) (r : response) :
  upper method = verb_name v →
  send (request_of v url data headers) = Ok r →
  (400 ≤ status_code r < 600)%Z →
  (call_external_api upper send url method data headers).2 =
  Raise (HTTPError (status_code r)).
Proof.
  intros Hv Hsend Hstatus.
  rewrite (call_supported v) by done.
  unfold attempt, raise_for_status. simpl. rewrite Hsend. simpl.
  destruct (Z.leb_spec 400 (status_code r)); [|lia].
  destruct (Z.ltb_spec (status_code r) 600); [done | lia].
Qed.

(** X11: any other status counts as success, 1xx and 3xx included: an
    empty body gives the empty mapping, a JSON body its value, and a body
    that is not JSON raises [JSONDecodeError]. *)
Theorem call_external_api_success (v : verb) (url method : string)
    (data headers : option pydict) (r : response) :
  upper method = verb_name v →
  send (request_of v url data headers) = Ok r →
  (status_code r < 400 ∨ 600 ≤ status_code r)%Z →
  (call_external_api upper send url method data headers).2 =
  if String.eqb (content r) "" then Ok (PDict ∅)
  else match json r with
       | Some body => Ok body
       | None => Raise JSONDecodeError
       end.
Proof.
  intros Hv Hsend Hstatus.
  rewrite (call_supported v) by done.
  unfold attempt, raise_for_status. simpl. rewrite Hsend. simpl.
  destruct (Z.leb_spec 400 (status_code r));
    destruct (Z.ltb_spec (status_code r) 600); simpl; try done; lia.
Qed.

End call_more.

Lemma call_external_api_request_witness :
  Api.call_external_api Api.upper_ascii (λ _, Raise RequestException)
    "http://localhost/x" "get" (Some (<["a" := PInt 1]> ∅)) (Some ∅) =
  Api.attempt (λ _, Raise RequestException)
    {| Api.req_verb := Api.GET; Api.req_url := "http://localhost/x";
       Api.req_json := None; Api.req_headers := ∅ |}.
Proof.
  apply (call_external_api_request Api.upper_ascii
           (λ _, Raise RequestException) Api.GET).
  reflexivity.
Defined.

Lemma call_external_api_http_error_witness :
  (Api.call_external_api Api.upper_ascii
     (λ _, Ok {| Api.status_code := 503; Api.content := "{}";
                   Api.json := Some (PDict ∅) |})
     "http://localhost/x" "post" None None).2 =
  Raise (HTTPError 503).
Proof.
  apply (call_external_api_http_error Api.upper_ascii _ Api.POST
           "http://localhost/x" "post" None None
           {| Api.status_code := 503; Api.content := "{}";
              Api.json := Some (PDict ∅) |}).
  - reflexivity.
  - reflexivity.
  - simpl. lia.
Defined.

Lemma call_external_api_success_witness :
  (Api.call_external_api Api.upper_ascii
     (λ _, Ok {| Api.status_code := 304; Api.content := "";
                   Api.json := None |})
     "http://localhost/x" "GET" None None).2 =
  Ok (PDict ∅).
Proof.
  apply (call_external_api_success Api.upper_ascii _ Api.GET
           "http://localhost/x" "GET" None None
           {| Api.status_code := 304; Api.content := "";
              Api.json := None |}).
  - reflexivity.
  - reflexivity.
  - simpl. lia.
Defined.

(** ** The FHIR client *)

Section client_properties.
Import Agent.
Variable http_get : fhir_request → outcome Api.response.

(** X12: a new agent always sends [Content-Type] and [Accept]
    [application/fhir+json]; it sends [Authorization: Bearer key] exactly
    when a key that is not empty is given; and a missing or empty base URL
    is replaced by the public server. *)
Theorem init_headers (base key : option string) :
  headers (init base key) !! "Content-Type" = Some "application/fhir+json" ∧
  headers (init base key) !! "Accept" = Some "application/fhir+json" ∧
  headers (init base key) !! "Authorization" =
    match key with
    | Some k => if String.eqb k "" then None else Some ("Bearer " +:+ k)
    | None => None
    end ∧
  base_fhir_url (init base key) =
    match base with
    | Some u => if String.eqb u "" then DEFAULT_FHIR_URL else u
    | None => DEFAULT_FHIR_URL
    end ∧
  base_fhir_url (init base key) ≠ "".
Proof.
  unfold init. simpl. repeat split.
  - destruct key as [k|]; [destruct (String.eqb k "")|];
      by rewrite ?(lookup_insert_ne _ "Authorization"), ?lookup_insert_eq.
  - destruct key as [k|]; [destruct (String.eqb k "")|];
      by rewrite ?(lookup_insert_ne _ "Authorization"),
           ?(lookup_insert_ne _ "Content-Type"), ?lookup_insert_eq.
  - destruct key as [k|]; [destruct (String.eqb k "")|];
      by rewrite ?lookup_insert_eq, ?lookup_insert_ne, ?lookup_empty.
  - destruct base as [u|]; [|done].
    destruct (String.eqb_spec u ""); done.
Qed.

(** X13: [get_patient] returns a value exactly when the one request, a
    [GET] of [{base}/Patient/{id}] with the agent's headers and no
    parameters, is answered with a status outside 400 to 599 and a JSON
    body, and the value is that body.  On an answer with an empty body,
    which does not decode as JSON, it raises [JSONDecodeError], while
    [call_external_api] turns the same answer into the empty mapping. *)
Theorem get_patient_returns (self : agent) (patient_id : string) :
  (∀ v,
     get_patient http_get self patient_id = Ok v ↔
     ∃ r,
       http_get
         {| fhir_url := base_fhir_url self +:+ "/Patient/" +:+ patient_id;
            fhir_headers := headers self;
            fhir_params := None |} = Ok r ∧
       (Api.status_code r < 400 ∨ 600 ≤ Api.status_code r)%Z ∧
       Api.json r = Some v) ∧
  (∀ r,
     http_get
       {| fhir_url := base_fhir_url self +:+ "/Patient/" +:+ patient_id;
          fhir_headers := headers self;
          fhir_params := None |} = Ok r →
     (Api.status_code r < 400 ∨ 600 ≤ Api.status_code r)%Z →
     Api.content r = "" →
     Api.json r = None →
     get_patient http_get self patient_id = Raise JSONDecodeError ∧
     ∀ send req, send req = Ok r → (Api.attempt send req).2 = Ok (PDict ∅)).
Proof.
  split.
  - intros v.
    unfold get_patient, fetch, response_json, Api.raise_for_status.
    destruct (http_get _) as [r|e]; simpl;
      [|split; [done | by intros (r' & ? & _)]].
    destruct (Z.leb_spec 400 (Api.status_code r));
      destruct (Z.ltb_spec (Api.status_code r) 600); simpl;
      (split; [intros Hv | intros (r' & Hr & Hstatus & Hbody)]);
      simplify_eq; try lia; try (by rewrite Hbody).
    all: destruct (Api.json r) as [body|] eqn:Hjson; simplify_eq.
    all: exists r; split; [done|]; split; [lia | done].
  - intros r Hget Hstatus Hcontent Hjson.
    assert ((400 <=? Api.status_code r)%Z && (Api.status_code r <? 600)%Z
            = false) as Hok.
    { destruct (Z.leb_spec 400 (Api.status_code r));
        destruct (Z.ltb_spec (Api.status_code r) 600); simpl; try done; lia. }
    split.
    + unfold get_patient, fetch, response_json, Api.raise_for_status.
      rewrite Hget. simpl. rewrite Hok. simpl. by rewrite Hjson.
    + intros send req Hsend.
      unfold Api.attempt, Api.raise_for_status. simpl.
      rewrite Hsend. simpl. rewrite Hok. simpl. by rewrite Hcontent.
Qed.

(** X14: when the search is answered with a JSON object, [search_patients]
    returns what the object has under [entry], and the empty list when it
    has no such key; when the body is JSON but not an object it raises
    [AttributeError].  The parameters go out as given. *)
Theorem search_patients_entries (self : agent) (params : pydict)
    (r : Api.response) (body : pyval) :
  http_get {| fhir_url := base_fhir_url self +:+ "/Patient";
              fhir_headers := headers self;
              fhir_params := Some params |} = Ok r →
  (Api.status_code r < 400 ∨ 600 ≤ Api.status_code r)%Z →
  Api.json r = Some body →
  search_patients http_get self params =
  match body with
  | PDict bundle => Ok (default (PList []) (bundle !! "entry"))
  | _ => Raise AttributeError
  end.
Proof.
  intros Hget Hstatus Hjson.
  unfold search_patients, fetch, response_json, Api.raise_for_status.
  rewrite Hget. simpl.
  destruct (Z.leb_spec 400 (Api.status_code r));
    destruct (Z.ltb_spec (Api.status_code r) 600); simpl; try lia;
    rewrite Hjson; by destruct body.
Qed.

(** X15: [get_patient_observations] is the search of [{base}/Observation]
    with the one parameter [patient], and returns the [entry] of the answer
    in the same way. *)
Theorem get_patient_observations_entries (self : agent) (patient_id : string)
    (r : Api.response) (body : pyval) :
  http_get {| fhir_url := base_fhir_url self +:+ "/Observation";
              fhir_headers := headers self;
              fhir_params := Some (<["patient" := PStr patient_id]> ∅) |} =
    Ok r →
  (Api.status_code r < 400 ∨ 600 ≤ Api.status_code r)%Z →
  Api.json r = Some body →
  get_patient_observations http_get self patient_id =
  match body with
  | PDict bundle => Ok (default (PList []) (bundle !! "entry"))
  | _ => Raise AttributeError
  end.
Proof.
  intros Hget Hstatus Hjson.
  unfold get_patient_observations, fetch, response_json,
    Api.raise_for_status.
  rewrite Hget. simpl.
  destruct (Z.leb_spec 400 (Api.status_code r));
    destruct (Z.ltb_spec (Api.status_code r) 600); simpl; try lia;
    rewrite Hjson; by destruct body.
Qed.

End client_properties.

Lemma get_patient_returns_witness :
  Agent.get_patient
    (λ _, Ok {| Api.status_code := 200; Api.content := "";
                Api.json := None |})
    (Agent.init None None) "example" = Raise JSONDecodeError ∧
  ∀ send req,
    send req = Ok {| Api.status_code := 200; Api.content := "";
                     Api.json := None |} →
    (Api.attempt send req).2 = Ok (PDict ∅).
Proof.
  apply (proj2 (get_patient_returns
                  (λ _, Ok {| Api.status_code := 200; Api.content := "";
                              Api.json := None |})
                  (Agent.init None None) "example")).
  - reflexivity.
  - simpl. lia.
  - reflexivity.
  - reflexivity.
Defined.

Lemma search_patients_entries_witness :
  Agent.search_patients
    (λ _, Ok {| Api.status_code := 200; Api.content := "{}";
                Api.json := Some (PDict ∅) |})
    (Agent.init None None) (<["name" := PStr "Smith"]> ∅) = Ok (PList []).
Proof.
  rewrite (search_patients_entries _ (Agent.init None None)
             (<["name" := PStr "Smith"]> ∅)
             {| Api.status_code := 200; Api.content := "{}";
                Api.json := Some (PDict ∅) |} (PDict ∅)).
  - reflexivity.
  - reflexivity.
  - simpl. lia.
  - reflexivity.
Defined.

Lemma get_patient_observations_entries_witness :
  Agent.get_patient_observations
    (λ _, Ok {| Api.status_code := 200; Api.content := "[]";
                Api.json := Some (PList []) |})
    (Agent.init None None) "example" = Raise AttributeError.
Proof.
  apply (get_patient_observations_entries _ (Agent.init None None) "example"
           {| Api.status_code := 200; Api.content := "[]";
              Api.json := Some (PList []) |} (PList [])).
  - reflexivity.
  - simpl. lia.
  - reflexivity.
Defined.

(** ** The gateway *)

Section gateway_properties.
Import Gateway.
Variable str_of : pyval → string.
Variable upper : string → string.
Variable send : Api.request → outcome Api.response.
Variable http_get : Agent.fhir_request → outcome Api.response.
Variable text_of : exn → string.

(** X16: [POST /hl7/parse] never answers with an error: for every message
    the reply is the parsed record. *)
Theorem parse_hl7_never_fails (message : string) :
  ∃ result,
    HL7.parse_hl7_message message = Ok result ∧
    parse_hl7 text_of message = Reply (PDict result).
Proof.
  unfold parse_hl7. rewrite parse_hl7_message_fold. by eexists.
Qed.

Lemma convert_convertible (data : pydict) :
  FHIR.name_convertible data →
  ∃ hl7, FHIR.convert_fhir_to_hl7 str_of data = Ok hl7.
Proof.
  intros [Hempty | (name & rest & Hname & Hgiven)].
  { eexists. by apply convert_unnamed. }
  unfold FHIR.convert_fhir_to_hl7, FHIR.get. rewrite Hname.
  cbn [truthy FHIR.item0 index lookup list_lookup mbind outcome_bind
    FHIR.get_receiver].
  destruct (name !! "given") as [g|]; [|eexists; reflexivity].
  cbn [default from_option id].
  destruct (truthy g) eqn:Hg; [|eexists; reflexivity].
  destruct Hgiven as [Hfalse | [(x & l & ->) | (s & ->)]].
  - by rewrite Hfalse in Hg.
  - eexists. reflexivity.
  - cbn [truthy] in Hg. cbn [FHIR.item0].
    destruct (String.eqb s ""); [done|]. eexists. reflexivity.
Qed.

(** X17: [POST /fhir-to-hl7] answers [{hl7_message: ...}] with the
    converted message when the name has a shape the conversion goes through
    on, and with status 400 on every other input. *)
Theorem convert_fhir_to_hl7_reply (data : pydict) :
  (FHIR.name_convertible data →
   ∃ hl7,
     FHIR.convert_fhir_to_hl7 str_of data = Ok hl7 ∧
     convert_fhir_to_hl7 str_of text_of data =
     Reply (PDict (<["hl7_message" := PStr hl7]> ∅))) ∧
  (¬ FHIR.name_convertible data →
   ∃ detail,
     convert_fhir_to_hl7 str_of text_of data = HTTPException 400 detail).
Proof.
  unfold convert_fhir_to_hl7. split.
  - intros Hshape. destruct (convert_convertible data Hshape) as [hl7 Hok].
    exists hl7. by rewrite Hok.
  - intros Hshape.
    destruct (FHIR.convert_fhir_to_hl7 str_of data) as [hl7|e] eqn:Hconv.
    + destruct Hshape. by eapply convert_returns_only_convertible.
    + by eexists.
Qed.

Lemma call_unsupported (url method : string) (data headers : option pydict) :
  upper method ∉ Api.supported →
  Api.call_external_api upper send url method data headers =
  ([], Raise (ValueError ("Unsupported HTTP method: " +:+ method))).
Proof.
  intros Hnot. unfold Api.call_external_api.
  assert (∀ v, upper method ≠ Api.verb_name v) as Hne.
  { intros v Hv. apply Hnot, elem_of_supported. by exists v. }
  destruct (String.eqb_spec (upper method) "GET"); [by destruct (Hne Api.GET)|].
  destruct (String.eqb_spec (upper method) "POST");
    [by destruct (Hne Api.POST)|].
  destruct (String.eqb_spec (upper method) "PUT"); [by destruct (Hne Api.PUT)|].
  destruct (String.eqb_spec (upper method) "DELETE");
    [by destruct (Hne Api.DELETE)|].
  done.
Qed.

(** X18: [POST /call-api] with an unsupported method attempts no request
    and answers with status 500 (not 400) and the detail
    [Error calling external API: Unsupported HTTP method: {method}], the
    method spelled as it was given. *)
Theorem call_api_unsupported (url method : string)
    (data headers : option pydict) :
  upper method ∉ Api.supported →
  call_external_api upper send text_of url method data headers =
  ([], HTTPException 500
         ("Error calling external API: Unsupported HTTP method: " +:+ method)).
Proof.
  intros Hnot. unfold call_external_api.
  by rewrite call_unsupported.
Qed.

(** X19: [GET /patient/{id}] asks the public server for
    [/Patient/{id}] without an [Authorization] header, and reports every
    error status of the server, 5xx included, as 404. *)
Theorem get_patient_upstream_error (patient_id : string) (r : Api.response) :
  http_get
    {| Agent.fhir_url :=
         "https://hapi.fhir.org/baseR4" +:+ "/Patient/" +:+ patient_id;
       Agent.fhir_headers :=
         <["Content-Type" := "application/fhir+json"]>
           (<["Accept" := "application/fhir+json"]> ∅);
       Agent.fhir_params := None |} = Ok r →
  (400 ≤ Api.status_code r < 600)%Z →
  get_patient http_get text_of patient_id =
  HTTPException 404
    ("Patient not found: " +:+ text_of (HTTPError (Api.status_code r))).
Proof.
  intros Hget Hstatus.
  unfold get_patient, Agent.get_patient, Agent.fetch, Api.raise_for_status.
  change (Agent.base_fhir_url get_agent) with "https://hapi.fhir.org/baseR4".
  change (Agent.headers get_agent)
    with (<["Content-Type" := "application/fhir+json"]>
            (<["Accept" := "application/fhir+json"]> (∅ : gmap string string))).
  rewrite Hget. cbn [mbind outcome_bind].
  destruct (Z.leb_spec 400 (Api.status_code r)); [|lia].
  destruct (Z.ltb_spec (Api.status_code r) 600); [done | lia].
Qed.

(** X20: the search parameters are the fields of the request that are not
    [None], under their own names, and nothing else; a field that is the
    empty string is passed on. *)
Theorem search_params_fields (search : PatientSearch) :
  search_params search !! "name" = PStr <$> name search ∧
  search_params search !! "identifier" = PStr <$> identifier search ∧
  search_params search !! "birthdate" = PStr <$> birthdate search ∧
  search_params search !! "gender" = PStr <$> gender search ∧
  ∀ k, is_Some (search_params search !! k) →
       k ∈ ["name"; "identifier"; "birthdate"; "gender"].
Proof.
  destruct search as [[n|] [i|] [b|] [g|]];
    unfold search_params; simpl;
    (repeat split;
     [by rewrite ?lookup_insert_eq, ?lookup_insert_ne, ?lookup_empty ..|]);
    intros k [v Hk];
    repeat (apply lookup_insert_Some in Hk as [[<- _] | [_ Hk]];
            [set_solver|]);
    by rewrite lookup_empty in Hk.
Qed.

End gateway_properties.

Lemma convert_fhir_to_hl7_reply_witness :
  ∃ detail,
    Gateway.convert_fhir_to_hl7 (λ _, "") (λ _, "") FHIR.name_as_text =
    Gateway.HTTPException 400 detail.
Proof.
  apply (proj2 (convert_fhir_to_hl7_reply (λ _, "") (λ _, "")
                  FHIR.name_as_text)).
  intros [Hempty | (name & rest & Hname & _)].
  - vm_compute in Hempty. discriminate.
  - vm_compute in Hname. discriminate.
Defined.

Lemma call_api_unsupported_witness :
  Gateway.call_external_api Api.upper_ascii (λ _, Raise RequestException)
    (λ _, "")
    "http://localhost/x" "patch" None None =
  ([], Gateway.HTTPException 500
         "Error calling external API: Unsupported HTTP method: patch").
Proof.
  apply (call_api_unsupported Api.upper_ascii (λ _, Raise RequestException)
           (λ _, "")
           "http://localhost/x" "patch" None None).
  vm_compute. intros H.
  repeat (apply elem_of_cons in H as [H|H]; [discriminate|]).
  by apply elem_of_nil in H.
Defined.

Lemma get_patient_upstream_error_witness :
  Gateway.get_patient
    (λ _, Ok {| Api.status_code := 503; Api.content := "";
                Api.json := None |})
    (λ _, "503 Server Error") "example" =
  Gateway.HTTPException 404 "Patient not found: 503 Server Error".
Proof.
  apply (get_patient_upstream_error _ (λ _, "503 Server Error") "example"
           {| Api.status_code := 503; Api.content := "";
              Api.json := None |}).
  - reflexivity.
  - simpl. lia.
Defined.

(** ** Which segments give the patient keys *)

Section patient_keys.
Import HL7 Segment.

Lemma last_filter_is_Some (P : string → bool) (l : list string) :
  is_Some (last (filter P l)) ↔ ∃ x, x ∈ l ∧ P x = true.
Proof.
  rewrite last_is_Some. split.
  - intros Hne. destruct (filter P l) as [|x l'] eqn:Hf; [done|].
    assert (x ∈ filter P l) as Hin by (rewrite Hf; apply list_elem_of_here).
    apply list_elem_of_filter in Hin as [HP Hin].
    exists x. split; [done | by apply Is_true_true].
  - intros (x & Hin & HP) Hnil.
    assert (x ∈ filter P l) as Hin'
      by (apply list_elem_of_filter; split; [by apply Is_true_true | done]).
    rewrite Hnil in Hin'. by apply elem_of_nil in Hin'.
Qed.

(** X21: the record has a [patient_id] exactly when the message has a
    [PID] segment with more than 5 fields, and a [last_name] exactly when
    it has such a segment whose field 5 has at least two components. *)
Theorem parse_patient_keys (hl7_message : string) :
  ∃ result, parse_hl7_message hl7_message = Ok result ∧
    (is_Some (result !! "patient_id") ↔
     ∃ segment, segment ∈ segments hl7_message ∧ pid_wf segment = true) ∧
    (is_Some (result !! "last_name") ↔
     ∃ segment, segment ∈ segments hl7_message ∧ pid_named segment = true).
Proof.
  destruct (parse_result hl7_message) as (result & Hr & Hid & Hl & _).
  exists result. split; [done|].
  rewrite Hid, Hl, !fmap_is_Some. split; apply last_filter_is_Some.
Qed.

End patient_keys.
